(** * update/menu.go: the interactive release menu of fluxctl

    A shallow embedding of the redraw buffer ([ClearableWriter]), the menu
    model ([Menu], [MenuItem]) and the key decoder ([getChar]), followed by
    the properties of the menu that were checked against the code. *)

From Stdlib Require Import ZArith Lia String Ascii List.
From stdpp Require Import base option list sorting strings gmap pretty.

Local Open Scope string_scope.
Local Open Scope Z_scope.

(** ** Go's [int] on a 64-bit target *)

Module GoInt.

Definition int_min : Z := - 2 ^ 63.
Definition int_max : Z := 2 ^ 63 - 1.

(** The value an [int] holds after an arithmetic operation whose exact
    result is [z]: two's complement wrap-around. *)
Definition wrap (z : Z) : Z := (z + 2 ^ 63) mod 2 ^ 64 - 2 ^ 63.

Definition in_range (z : Z) : Prop := int_min <= z <= int_max.

(** A slice of [MenuItem] holds fewer rows than this: a row occupies more
    than two bytes of a 64-bit address space. *)
Definition max_rows : Z := 2 ^ 62.

End GoInt.
Export GoInt.

(** ** Run-time panics and the monad of the menu's procedures *)

Inductive panic : Type :=
| IndexOutOfRange
| DivideByZero
| NilDereference.

Inductive result (A : Type) : Type :=
| Ok (a : A)
| Panic (p : panic).
Arguments Ok {A} a.
Arguments Panic {A} p.

(** ** Escape sequences and the characters the code names *)

Definition ESC : string := String "027"%char "".
Definition NL : string := String "010"%char "".
Definition TAB : string := String "009"%char "".

(** [fmt.Sprintf(clearLines, n)] with [clearLines = "\033[%dA"]. *)
Definition clearLines (n : Z) : string := ESC ++ "[" ++ pretty n ++ "A".
Definition hideCursor : string := ESC ++ "[?25l".
Definition showCursor : string := ESC ++ "[?25h".

(** ** The redraw buffer *)

(** What the wrapped [WriteFlusher] has been handed, in order. *)
Inductive sink_event : Type :=
| Written (p : string)
| Flushed.

Record ClearableWriter : Type := mkClearableWriter {
  wf : list sink_event;
  lines : Z
}.

Definition NewClearableWriter (sink : list sink_event) : ClearableWriter :=
  {| wf := sink; lines := 0 |}.

(** The loop of [Write]: one [c.lines++] per line-break byte of [p]. *)
Fixpoint count_lines (p : string) (n : Z) : Z :=
  match p with
  | EmptyString => n
  | String b p' =>
      count_lines p' (if Ascii.eqb b "010"%char then wrap (n + 1) else n)
  end.

Definition Write (p : string) (c : ClearableWriter) : ClearableWriter :=
  {| wf := wf c ++ [Written p]; lines := count_lines p (lines c) |}.

Definition Clear (c : ClearableWriter) : ClearableWriter :=
  {| wf := wf c ++ [Written (clearLines (lines c))]; lines := 0 |}.

Definition Flush (c : ClearableWriter) : ClearableWriter :=
  {| wf := wf c ++ [Flushed]; lines := lines c |}.

(** [fmt.Fprintln(c, s)] formats into one buffer and makes one [Write]. *)
Definition Fprintln (s : string) (c : ClearableWriter) : ClearableWriter :=
  Write (s ++ NL) c.

(** ** Results handed to the menu *)

(** [flux.ResourceID] is shown and looked up by its string form only;
    [MustParseResourceID] of a string produced by [String] gives the
    identifier back, so identifiers are their string forms. *)
Definition ResourceID : Type := string.

Definition ControllerUpdateStatus : Type := string.

(** Modelled from the spec: the status constants are declared outside
    menu.go; the spec names the two statuses the filter looks at
    "ignored" and "skipped". *)
Definition ReleaseStatusIgnored : ControllerUpdateStatus := "ignored".
Definition ReleaseStatusSkipped : ControllerUpdateStatus := "skipped".

(** The menu reads three things of a [ContainerUpdate]: [Container],
    [Current.String()] and [Target.Tag]. *)
Record ContainerUpdate : Type := mkContainerUpdate {
  Container : string;
  Current : string;
  TargetTag : string
}.

Definition zeroContainerUpdate : ContainerUpdate :=
  {| Container := ""; Current := ""; TargetTag := "" |}.

Record ControllerResult : Type := mkControllerResult {
  Status : ControllerUpdateStatus;
  Error : string;
  PerContainer : list ContainerUpdate
}.

Definition zeroControllerResult : ControllerResult :=
  {| Status := ""; Error := ""; PerContainer := [] |}.

(** [type Result map[flux.ResourceID]ControllerResult] *)
Definition Result : Type := gmap string ControllerResult.

Definition string_le (a b : string) : Prop := String.leb a b = true.

#[global] Instance string_le_dec : RelDecision string_le.
Proof. intros a b. unfold string_le. apply _. Defined.

(** Modelled from the spec: [Result.ServiceIDs] is declared outside menu.go;
    the spec says the identifiers are iterated "in a deterministic order
    (lexicographic by identifier string)". *)
Definition ServiceIDs (r : Result) : list string :=
  merge_sort string_le (map fst (map_to_list r)).

Definition MustParseResourceID (s : string) : ResourceID := s.

(** Go's [results[resourceID]]: the zero value when the key is absent. *)
Definition result_at (r : Result) (id : ResourceID) : ControllerResult :=
  default zeroControllerResult (r !! id).

(** ** The menu model *)

(** Addresses of the [ContainerUpdate] variables the rows point to. *)
Definition addr : Type := nat.

Record MenuItem : Type := mkMenuItem {
  id : ResourceID;
  status : ControllerUpdateStatus;
  error : string;
  update : option addr;          (* [*ContainerUpdate], [None] = nil *)
  selected : bool
}.

Record Menu : Type := mkMenu {
  out : ClearableWriter;
  results : Result;
  items : list MenuItem;
  cursor : Z;
  selectable : Z
}.

(** ** The world around the menu *)

Inductive tty_mode : Type := Cooked | Raw.

(** /dev/tty: its current mode and the number of handles open on it. *)
Record Tty : Type := mkTty {
  mode : tty_mode;
  handles : nat
}.

(** What one [term.Open] followed by one [t.Read] will meet. *)
Record TtyRead : Type := mkTtyRead {
  open_fails : bool;
  rd_data : list Z;              (* the bytes the device delivers *)
  rd_err : bool                  (* [t.Read] returns a non-nil error *)
}.

Record World : Type := mkWorld {
  heap : list ContainerUpdate;   (* the cells rows point into *)
  stdout : list string;          (* what [fmt.Printf] has printed *)
  tty : Tty
}.

(** A procedure runs in a world and either returns or panics; the world it
    leaves behind is observable in both cases. *)
Definition M (A : Type) : Type := World -> result A * World.

Definition ret {A} (a : A) : M A := fun w => (Ok a, w).

Definition bind {A B} (c : M A) (k : A -> M B) : M B :=
  fun w => match c w with
           | (Ok a, w') => k a w'
           | (Panic p, w') => (Panic p, w')
           end.

Definition throw {A} (p : panic) : M A := fun w => (Panic p, w).

Notation "'let*' x ':=' c 'in' k" := (bind c (fun x => k))
  (at level 10, x pattern, c at level 100, k at level 200).

Definition set_heap (h : list ContainerUpdate) (w : World) : World :=
  {| heap := h; stdout := stdout w; tty := tty w |}.

Definition set_tty (t : Tty) (w : World) : World :=
  {| heap := heap w; stdout := stdout w; tty := t |}.

(** [fmt.Printf(s)] for a format without verbs, to the process's stdout. *)
Definition Printf (s : string) : M unit :=
  fun w => (Ok tt, {| heap := heap w; stdout := stdout w ++ [s]; tty := tty w |}).

(** [*p]: a Go pointer that is not nil always designates a live cell. *)
Definition deref (h : list ContainerUpdate) (p : addr) : ContainerUpdate :=
  default zeroContainerUpdate (h !! p).

(** [l[i]] for an [int] index: [None] where Go panics. *)
Definition index {A} (l : list A) (i : Z) : option A :=
  if i <? 0 then None else l !! Z.to_nat i.

(** *** Rows *)

Definition MenuItem_selectable (i : MenuItem) : bool :=
  match update i with
  | Some _ => true
  | None => false
  end.

(** U+25C9 and U+25EF in UTF-8. *)
Definition fisheye : string :=
  String "226"%char (String "151"%char (String "137"%char "")).
Definition large_circle : string :=
  String "226"%char (String "151"%char (String "175"%char "")).

Definition MenuItem_checkbox (i : MenuItem) : string :=
  if negb (MenuItem_selectable i) then " "
  else if selected i then fisheye
  else large_circle.

Definition MenuItem_updates (h : list ContainerUpdate) (i : MenuItem) : string :=
  match update i with
  | Some p =>
      let u := deref h p in
      Container u ++ ": " ++ Current u ++ " -> " ++ TargetTag u
  | None => error i
  end.

Definition set_out (c : ClearableWriter) (m : Menu) : Menu :=
  {| out := c; results := results m; items := items m;
     cursor := cursor m; selectable := selectable m |}.

Definition set_cursor (z : Z) (m : Menu) : Menu :=
  {| out := out m; results := results m; items := items m;
     cursor := z; selectable := selectable m |}.

Definition set_items (l : list MenuItem) (m : Menu) : Menu :=
  {| out := out m; results := results m; items := l;
     cursor := cursor m; selectable := selectable m |}.

Definition set_selected (b : bool) (i : MenuItem) : MenuItem :=
  {| id := id i; status := status i; error := error i;
     update := update i; selected := b |}.

Definition AddItem (mi : MenuItem) (m : Menu) : Menu :=
  {| out := out m; results := results m;
     items := items m ++ [mi];
     cursor := cursor m;
     selectable := if MenuItem_selectable mi
                   then wrap (selectable m + 1) else selectable m |}.

(** *** Construction *)

(** The [switch] at the head of the loop body of [fromResults]: [true] where
    it reaches [continue]. *)
Definition skips (st : ControllerUpdateStatus) (verbosity : Z) : bool :=
  if String.eqb st ReleaseStatusIgnored then verbosity <? 2
  else if String.eqb st ReleaseStatusSkipped then verbosity <? 1
  else false.

(** [for _, upd := range result.PerContainer { m.AddItem(... update: &upd) }].
    The file predates Go 1.22 (it imports github.com/weaveworks/flux, a
    GOPATH-era package), so the statement declares ONE variable [upd], at
    address [p], assigned anew at each iteration; every row takes [&upd]. *)
Fixpoint range_PerContainer (resourceID : ResourceID)
    (st : ControllerUpdateStatus) (p : addr) (upds : list ContainerUpdate)
    (m : Menu) (h : list ContainerUpdate) : Menu * list ContainerUpdate :=
  match upds with
  | [] => (m, h)
  | upd :: rest =>
      let h1 := <[p := upd]> h in
      let m1 := AddItem {| id := resourceID; status := st; error := "";
                           update := Some p; selected := false |} m in
      range_PerContainer resourceID st p rest m1 h1
  end.

(** One iteration of the outer loop of [fromResults]. *)
Definition fromResults_body (results : Result) (verbosity : Z)
    (serviceID : string) (m : Menu) (h : list ContainerUpdate)
    : Menu * list ContainerUpdate :=
  let resourceID := MustParseResourceID serviceID in
  let result := result_at results resourceID in
  if skips (Status result) verbosity then (m, h)
  else
    let m1 := if negb (String.eqb (Error result) "")
              then AddItem {| id := resourceID; status := Status result;
                              error := Error result;
                              update := None; selected := false |} m
              else m in
    let p := length h in
    range_PerContainer resourceID (Status result) p (PerContainer result)
      m1 (h ++ [zeroContainerUpdate]).

Fixpoint fromResults_loop (results : Result) (verbosity : Z)
    (ids : list string) (m : Menu) (h : list ContainerUpdate)
    : Menu * list ContainerUpdate :=
  match ids with
  | [] => (m, h)
  | serviceID :: rest =>
      let '(m1, h1) := fromResults_body results verbosity serviceID m h in
      fromResults_loop results verbosity rest m1 h1
  end.

Definition fromResults (results : Result) (verbosity : Z) (m : Menu) : M Menu :=
  fun w =>
    let '(m1, h1) :=
      fromResults_loop results verbosity (ServiceIDs results) m (heap w) in
    (Ok m1, set_heap h1 w).

(** [NewMenu(out, results, verbosity)]: the redraw buffer wraps a new tab
    writer around [out], which has been handed nothing yet. *)
Definition NewMenu (results : Result) (verbosity : Z) : M Menu :=
  fromResults results verbosity
    {| out := NewClearableWriter []; results := results;
       items := []; cursor := 0; selectable := 0 |}.

(** *** Painting *)

Definition renderItem (h : list ContainerUpdate) (item : MenuItem)
    (cursor : bool) (c : ClearableWriter) : ClearableWriter :=
  let curs := if cursor then ">" else " " in
  Write (curs ++ MenuItem_checkbox item ++ " " ++ id item ++ TAB
           ++ status item ++ TAB ++ MenuItem_updates h item ++ NL) c.

(** The loop of [Render]; [i] is its running counter. *)
Fixpoint Render_loop (h : list ContainerUpdate) (its : list MenuItem)
    (i : Z) (cur : Z) (c : ClearableWriter) : ClearableWriter :=
  match its with
  | [] => c
  | item :: rest =>
      let c1 := renderItem h item (i =? cur) c in
      Render_loop h rest
        (if MenuItem_selectable item then wrap (i + 1) else i) cur c1
  end.

Definition header : string :=
  "   CONTROLLER " ++ TAB ++ "STATUS " ++ TAB ++ "UPDATES".

Definition Render (m : Menu) : M Menu :=
  fun w =>
    let c0 := Clear (out m) in
    let c1 := Fprintln header c0 in
    let c2 := Render_loop (heap w) (items m) 0 (cursor m) c1 in
    (let* _ := Printf hideCursor in
     ret (set_out (Flush c2) m)) w.

(** *** Navigation and toggling *)

Definition toggleCursor (m : Menu) : M Menu :=
  match index (items m) (cursor m) with
  | None => throw IndexOutOfRange
  | Some it =>
      Render (set_items
                (<[Z.to_nat (cursor m) := set_selected (negb (selected it)) it]>
                   (items m)) m)
  end.

(** Go's [a % b] on [int]: a panic for [b = 0], else the remainder of the
    division truncated towards zero. *)
Definition go_rem (a b : Z) : result Z :=
  if b =? 0 then Panic DivideByZero else Ok (Z.rem a b).

Definition cursorDown (m : Menu) : M Menu :=
  match go_rem (wrap (cursor m + 1)) (selectable m) with
  | Panic p => throw p
  | Ok c => Render (set_cursor c m)
  end.

Definition cursorUp (m : Menu) : M Menu :=
  match go_rem (wrap (wrap (cursor m + selectable m) - 1)) (selectable m) with
  | Panic p => throw p
  | Ok c => Render (set_cursor c m)
  end.

(** ** The key decoder *)

(** github.com/pkg/term is an external library: [term.Open] yields a handle
    that remembers the mode it found the device in, [term.RawMode] switches
    the device to raw mode, [t.Restore] puts the remembered mode back and
    [t.Close] drops the handle.  [getChar] discards the error of [term.Open];
    a failed open leaves [t] nil and the first use of [t] dereferences it. *)
Definition getChar (k : TtyRead) : M (Z * Z * bool) :=
  fun w =>
    if open_fails k then (Panic NilDereference, w)
    else
      let orig := mode (tty w) in
      let w1 := set_tty {| mode := Raw; handles := S (handles (tty w)) |} w in
      if rd_err k then (Ok (0, 0, true), w1)
      else
        let bytes := take 3 (rd_data k) in
        let numRead := Z.of_nat (length bytes) in
        let byte n := nth n bytes 0 in
        let '(ascii, keyCode) :=
          if (numRead =? 3) && (byte 0%nat =? 27) && (byte 1%nat =? 91) then
            if byte 2%nat =? 65 then (0, 38)
            else if byte 2%nat =? 66 then (0, 40)
            else if byte 2%nat =? 67 then (0, 39)
            else if byte 2%nat =? 68 then (0, 37)
            else (0, 0)
          else if numRead =? 1 then (byte 0%nat, 0)
          else (0, 0) in
        (Ok (ascii, keyCode, false),
         set_tty {| mode := orig; handles := handles (tty w) |} w1).

(** ** The interaction loop *)

Inductive RunExit : Type :=
| Returned (selected : list ContainerUpdate) (aborted : bool)
| Waiting.                       (* the reads given are used up *)

(** The loop of the Enter branch: [selected = append(selected, *item.update)]
    for every row with [item.selected]. *)
Fixpoint collect (h : list ContainerUpdate) (its : list MenuItem)
    (acc : list ContainerUpdate) : result (list ContainerUpdate) :=
  match its with
  | [] => Ok acc
  | item :: rest =>
      if selected item then
        match update item with
        | None => Panic NilDereference
        | Some p => collect h rest (acc ++ [deref h p])
        end
      else collect h rest acc
  end.

Definition collect_selected (m : Menu) : M (list ContainerUpdate) :=
  fun w => (collect (heap w) (items m) [], w).

(** The [for] loop of [Run], driven by the reads the terminal will deliver.
    When they are used up the result is [Waiting], with the menu and the
    world as they are at the head of the loop, before the next [getChar]
    opens the device and blocks in [t.Read]. *)
Fixpoint Run_loop (keys : list TtyRead) (m : Menu) : M (RunExit * Menu) :=
  match keys with
  | [] => ret (Waiting, m)
  | k :: keys' =>
      let* (ascii, keyCode, err) := getChar k in
      if (ascii =? 3) || (ascii =? 27) || err then
        ret (Returned [] true, set_out (Fprintln "Aborted." (out m)) m)
      else
        let* r :=
          (if ascii =? 32 then
             let* m1 := toggleCursor m in ret (inr m1)
           else if ascii =? 13 then
             let* sel := collect_selected m in
             let* _ := Printf NL in
             ret (inl sel)
           else ret (inr m)) in
        match r with
        | inl sel => ret (Returned sel false, m)
        | inr m1 =>
            let* m2 :=
              (if keyCode =? 40 then cursorDown m1
               else if keyCode =? 38 then cursorUp m1
               else ret m1) in
            Run_loop keys' m2
        end
  end.

(** [Run]: the deferred [fmt.Printf(showCursor)] runs when the function
    returns and when it panics, not while its loop is still going. *)
Definition Run (keys : list TtyRead) (m : Menu) : M (RunExit * Menu) :=
  fun w =>
    match (let* m0 := Render m in Run_loop keys m0) w with
    | (Ok (Waiting, m1), w1) => (Ok (Waiting, m1), w1)
    | (r, w1) => (r, snd (Printf showCursor w1))
    end.

(** ** Sample inputs *)

Definition world0 : World :=
  {| heap := []; stdout := []; tty := {| mode := Cooked; handles := 0 |} |}.

Definition web_update : ContainerUpdate :=
  {| Container := "web"; Current := "nginx:1.14"; TargetTag := "1.15" |}.
Definition db_update : ContainerUpdate :=
  {| Container := "db"; Current := "postgres:9"; TargetTag := "10" |}.

(** One failed resource, then one resource with an update. *)
Definition error_then_update : Result :=
  <["default:deployment/b" :=
      {| Status := "success"; Error := ""; PerContainer := [web_update] |}]>
  (<["default:deployment/a" :=
      {| Status := "failed"; Error := "boom"; PerContainer := [] |}]> ∅).

(** One resource with two containers to update. *)
Definition two_containers : Result :=
  <["default:deployment/app" :=
      {| Status := "success"; Error := "";
         PerContainer := [web_update; db_update] |}]> ∅.

(** One ignored resource with an error and one skipped resource. *)
Definition ignored_and_skipped : Result :=
  <["default:deployment/i" :=
      {| Status := "ignored"; Error := "locked"; PerContainer := [] |}]>
  (<["default:deployment/s" :=
      {| Status := "skipped"; Error := ""; PerContainer := [web_update] |}]> ∅).

(** A read that delivers the single byte [b]. *)
Definition key (b : Z) : TtyRead :=
  {| open_fails := false; rd_data := [b]; rd_err := false |}.
(** A read that delivers ESC [ [b]. *)
Definition arrow (b : Z) : TtyRead :=
  {| open_fails := false; rd_data := [27; 91; b]; rd_err := false |}.
Definition failed_read : TtyRead :=
  {| open_fails := false; rd_data := []; rd_err := true |}.
Definition failed_open : TtyRead :=
  {| open_fails := true; rd_data := []; rd_err := false |}.

(** The menu a computation returned, for stating facts about it. *)
Definition menu_of (r : result Menu * World) : Menu :=
  match fst r with
  | Ok m => m
  | Panic _ =>
      {| out := NewClearableWriter []; results := ∅; items := [];
         cursor := 0; selectable := 0 |}
  end.

(** The menu [Run] is left with. *)
Definition menu_after (r : result (RunExit * Menu) * World) : Menu :=
  match fst r with
  | Ok (_, m) => m
  | Panic _ => menu_of (Panic IndexOutOfRange, snd r)
  end.

(** The menu of [two_containers] at verbosity 0, and the world it is in. *)
Definition sample_menu : Menu :=
  menu_of (NewMenu two_containers 0 world0).
Definition sample_world : World :=
  snd (NewMenu two_containers 0 world0).

(** ** Notions the properties are stated with *)

(** The number of line-break characters of [p]. *)
Fixpoint line_breaks (p : string) : Z :=
  match p with
  | EmptyString => 0
  | String b p' => (if Ascii.eqb b "010"%char then 1 else 0) + line_breaks p'
  end.

Definition total_line_breaks (ps : list string) : Z :=
  foldr (fun p n => line_breaks p + n) 0 ps.

(** [Write] called on each of [ps] in turn. *)
Definition writes (ps : list string) (c : ClearableWriter) : ClearableWriter :=
  foldl (fun c p => Write p c) c ps.

(** The line of one row as [renderItem] formats it. *)
Definition row_line (h : list ContainerUpdate) (item : MenuItem)
    (cursor : bool) : string :=
  (if cursor then ">" else " ") ++ MenuItem_checkbox item ++ " " ++ id item
    ++ TAB ++ status item ++ TAB ++ MenuItem_updates h item ++ NL.

(** The row lines of one paint, following the counter of [Render]. *)
Fixpoint row_lines (h : list ContainerUpdate) (its : list MenuItem)
    (i : Z) (cur : Z) : list string :=
  match its with
  | [] => []
  | item :: rest =>
      row_line h item (i =? cur)
        :: row_lines h rest
             (if MenuItem_selectable item then wrap (i + 1) else i) cur
  end.

(** Everything one [Render] writes through the redraw buffer. *)
Definition painted (h : list ContainerUpdate) (m : Menu) : list string :=
  (header ++ NL) :: row_lines h (items m) 0 (cursor m).

(** A row as the user sees it: its descriptor is what its pointer holds. *)
Definition row_view : Type :=
  (ResourceID * ControllerUpdateStatus * string * option ContainerUpdate * bool).

Definition view (h : list ContainerUpdate) (i : MenuItem) : row_view :=
  (id i, status i, error i, deref h <$> update i, selected i).

(** The rows of the menu a computation returned. *)
Definition rows_of (r : result Menu * World) : list row_view :=
  match r with
  | (Ok m, w) => map (view (heap w)) (items m)
  | (Panic _, _) => []
  end.

(** The rows a resource that is not skipped adds: its error row if it has
    an error, then one row per container update, each showing what the
    loop variable holds when the loop is over. *)
Definition resource_rows (i : ResourceID) (res : ControllerResult)
    : list row_view :=
  (if negb (String.eqb (Error res) "")
   then [(i, Status res, Error res, None, false)] else [])
  ++ map (fun _ => (i, Status res, "",
                    Some (List.last (PerContainer res) zeroContainerUpdate),
                    false))
       (PerContainer res).

Definition contribution (results : Result) (verbosity : Z) (serviceID : string)
    : list row_view :=
  let res := result_at results (MustParseResourceID serviceID) in
  if skips (Status res) verbosity then []
  else resource_rows (MustParseResourceID serviceID) res.

(** The row [range_PerContainer] adds at each iteration. *)
Definition update_row (i : ResourceID) (st : ControllerUpdateStatus)
    (p : addr) : MenuItem :=
  {| id := i; status := st; error := ""; update := Some p; selected := false |}.

(** A row points, if anywhere, into the heap. *)
Definition valid_row (h : list ContainerUpdate) (i : MenuItem) : Prop :=
  match update i with
  | Some p => (p < length h)%nat
  | None => True
  end.

(** The threshold rule as the specification words it: "ignored" below
    verbosity 2, "skipped" below verbosity 1. *)
Definition threshold_rule (st : ControllerUpdateStatus) (verbosity : Z) : bool :=
  (String.eqb st "ignored" && (verbosity <? 2))
  || (String.eqb st "skipped" && (verbosity <? 1)).


(** The first character of what one [Write] handed to the sink; for the
    line of a row this is its cursor marker. *)
Definition marker (e : sink_event) : string :=
  match e with
  | Written (String a _) => String a ""
  | _ => ""
  end.

(** ** Notions for the further properties *)

(** The number of rows that carry an update descriptor. *)
Definition count_selectable (its : list MenuItem) : Z :=
  Z.of_nat (length (List.filter MenuItem_selectable its)).

(** A row with its selected flag flipped, as [toggleCursor] stores it. *)
Definition flip_selected (i : MenuItem) : MenuItem :=
  set_selected (negb (selected i)) i.

(** The same operation [n] times in a row. *)
Fixpoint times (n : nat) (op : Menu -> M Menu) (m : Menu) : M Menu :=
  match n with
  | O => ret m
  | S n' => let* m1 := op m in times n' op m1
  end.

(** The counter is the count of selectable rows, as an [int]. *)
Definition counted (m : Menu) : Prop :=
  selectable m = wrap (count_selectable (items m)).

(** A row with its selected flag cleared. *)
Definition unselected (i : MenuItem) : MenuItem := set_selected false i.

(** [m'] has the rows of [m] up to their selected flags, and its selectable
    count and result data. *)
Definition same_rows (m m' : Menu) : Prop :=
  map unselected (items m') = map unselected (items m)
  /\ selectable m' = selectable m /\ results m' = results m.

(** What an operation of the menu may do to the world: print hide-cursor
    sequences; and to the menu: keep its rows up to their selected flags. *)
Definition op_effect (m : Menu) (w : World) (r : result Menu) (w' : World)
    : Prop :=
  heap w' = heap w /\ tty w' = tty w
  /\ (exists n, stdout w' = (stdout w ++ replicate n hideCursor)%list)
  /\ forall m', r = Ok m' -> same_rows m m'.

(** The descriptors of the selected rows, in row order. *)
Definition selected_updates (h : list ContainerUpdate) (its : list MenuItem)
    : list ContainerUpdate :=
  flat_map (fun i => if selected i
                     then match update i with
                          | Some p => [deref h p]
                          | None => []
                          end
                     else []) its.

(** The line break the Enter branch of [Run] prints. *)
Definition loop_tail (r : result (RunExit * Menu)) : list string :=
  match r with
  | Ok (Returned _ false, _) => [NL]
  | _ => []
  end.

(** What [Run] prints last: nothing while it waits, else the line break of
    Enter if any and the show-cursor sequence. *)
Definition exit_tail (r : result (RunExit * Menu)) : list string :=
  match r with
  | Ok (Waiting, _) => []
  | _ => (loop_tail r ++ [showCursor])%list
  end.

(** [Run] has left its loop. *)
Definition exited (r : result (RunExit * Menu)) : Prop :=
  match r with
  | Ok (Waiting, _) => False
  | _ => True
  end.

(** What the loop of [Run] does to the world and the menu. *)
Definition loop_effect (keys : list TtyRead) (m : Menu) (w : World)
    (r : result (RunExit * Menu)) (w' : World) : Prop :=
  heap w' = heap w
  /\ (exists n, stdout w' = (stdout w ++ replicate n hideCursor ++ loop_tail r)%list)
  /\ (Forall (fun k => rd_err k = false) keys -> tty w' = tty w)
  /\ forall x m', r = Ok (x, m') -> same_rows m m'.

(** The second half of the body of the loop of [Run]: the arrow keys, then
    the next turn of the loop. *)
Definition after_keyCode (keyCode : Z) (keys : list TtyRead) (m : Menu)
    : M (RunExit * Menu) :=
  let* m2 := (if keyCode =? 40 then cursorDown m
              else if keyCode =? 38 then cursorUp m
              else ret m) in
  Run_loop keys m2.

(** A read that is none of the keys [Run] reacts to: no byte or two bytes,
    three bytes that are not the Up or Down arrow, or one byte other than
    Ctrl-C, Escape, Space and Enter. *)
Definition ignored_read (k : TtyRead) : Prop :=
  open_fails k = false /\ rd_err k = false /\
  match take 3 (rd_data k) with
  | [b] => b <> 3 /\ b <> 27 /\ b <> 32 /\ b <> 13
  | [b0; b1; b2] => ~ (b0 = 27 /\ b1 = 91 /\ (b2 = 65 \/ b2 = 66))
  | _ => True
  end.

(** Every selected row carries an update descriptor. *)
Definition selection_ok (its : list MenuItem) : Prop :=
  Forall (fun i => selected i = true -> MenuItem_selectable i = true) its.

(** Some selected row carries no update descriptor. *)
Definition selection_broken (its : list MenuItem) : Prop :=
  Exists (fun i => selected i = true /\ MenuItem_selectable i = false) its.

(** No row is selected. *)
Definition none_selected (its : list MenuItem) : Prop :=
  Forall (fun i => selected i = false) its.

(** The texts of a row hold no line break. *)
Definition one_line_row (h : list ContainerUpdate) (i : MenuItem) : Prop :=
  line_breaks (id i) = 0 /\ line_breaks (status i) = 0
  /\ line_breaks (MenuItem_updates h i) = 0.




(** * Properties *)

(** ** Go's [int] *)

Lemma wrap_small z : in_range z -> wrap z = z.
Proof.
  unfold in_range, int_min, int_max, wrap. intros H.
  rewrite Z.mod_small; lia.
Qed.

Lemma wrap_in_range z : in_range (wrap z).
Proof.
  unfold in_range, int_min, int_max, wrap.
  pose proof (Z.mod_pos_bound (z + 2 ^ 63) (2 ^ 64)). lia.
Qed.

(** Wrapping an intermediate sum does not change the wrapped total. *)
Lemma wrap_add_l a b : wrap (wrap a + b) = wrap (a + b).
Proof.
  unfold wrap.
  replace ((a + 2 ^ 63) mod 2 ^ 64 - 2 ^ 63 + b + 2 ^ 63)
    with ((a + 2 ^ 63) mod 2 ^ 64 + b) by lia.
  rewrite Zplus_mod_idemp_l. f_equal. f_equal. lia.
Qed.

(** ** Toggling by raw index *)

(** C1, at a menu whose first row is an error row: [toggleCursor] with the
    cursor at 0 sets [selected] on the error row, which carries no update
    descriptor, and leaves the one selectable row unselected. *)
Theorem toggleCursor_selects_error_row :
  exists m w,
    (let* m0 := NewMenu error_then_update 0 in toggleCursor m0) world0
      = (Ok m, w)
    /\ cursor m = 0 /\ selectable m = 1
    /\ map (fun i => (MenuItem_selectable i, selected i)) (items m)
       = [(false, true); (true, false)].
Proof.
  eexists _, _. split; [vm_compute; reflexivity|].
  repeat split.
Qed.

(** ** One loop variable for all rows of a resource *)

(** C2, at a resource with two container updates: both rows point at the
    same cell, which holds the second update; selecting the first row only
    and pressing Enter returns the second update, not the first.  And at
    the menu whose first row is an error row, Space then Enter panics on the
    nil descriptor of the row that got selected. *)
Theorem Run_returns_last_update_of_resource :
  (exists m0 w0 m w,
      NewMenu two_containers 0 world0 = (Ok m0, w0)
      /\ map update (items m0) = [Some 0%nat; Some 0%nat]
      /\ heap w0 = [db_update]
      /\ Run [key 32; key 13] m0 w0 = (Ok (Returned [db_update] false, m), w)
      /\ map selected (items m) = [true; false])
  /\ (exists m0 w0,
      NewMenu error_then_update 0 world0 = (Ok m0, w0)
      /\ fst (Run [key 32; key 13] m0 w0) = Panic NilDereference).
Proof.
  split.
  - eexists _, _, _, _.
    split; [vm_compute; reflexivity|].
    split; [reflexivity|]. split; [reflexivity|].
    split; [vm_compute; reflexivity|]. reflexivity.
  - eexists _, _. split; [vm_compute; reflexivity|]. reflexivity.
Qed.

(** ** No selectable rows *)

(** C3, at the menu built from an empty result map (no rows, selectable
    count zero): [cursorDown] and [cursorUp] panic with a division by zero
    and [toggleCursor] panics with an index out of range; so does [Run] on
    the Down key. *)
Theorem cursor_ops_panic_without_selectable_rows :
  exists m0 w0,
    NewMenu ∅ 0 world0 = (Ok m0, w0)
    /\ items m0 = [] /\ selectable m0 = 0 /\ cursor m0 = 0
    /\ fst (cursorDown m0 w0) = Panic DivideByZero
    /\ fst (cursorUp m0 w0) = Panic DivideByZero
    /\ fst (toggleCursor m0 w0) = Panic IndexOutOfRange
    /\ fst (Run [arrow 66] m0 w0) = Panic DivideByZero.
Proof.
  eexists _, _. split; [vm_compute; reflexivity|].
  repeat split.
Qed.

(** ** The terminal after a failed read *)

(** C4, at a read that returns an error: [getChar] returns the error with
    the device still in raw mode and its handle still open, whereas after a
    successful read the device is back as it was found.  At a failed open,
    no error is returned: the function panics. *)
Theorem getChar_leaves_tty_raw_on_read_error :
  getChar failed_read world0
    = (Ok (0, 0, true), set_tty {| mode := Raw; handles := 1 |} world0)
  /\ getChar (key 32) world0 = (Ok (32, 0, false), world0)
  /\ fst (getChar failed_open world0) = Panic NilDereference.
Proof. repeat split. Qed.

(** ** Cursor markers *)

(** C5, at a menu whose rows are an error row then a selectable row, cursor
    at 0: [Render] writes the marker [">"] on both rows. *)
Theorem Render_marks_error_row_before_cursor_row :
  exists m0 w0 m w,
    NewMenu error_then_update 0 world0 = (Ok m0, w0)
    /\ map MenuItem_selectable (items m0) = [false; true]
    /\ cursor m0 = 0
    /\ Render m0 w0 = (Ok m, w)
    /\ map marker (wf (out m)) = [ESC; " "; ">"; ">"; ""].
Proof.
  eexists _, _, _, _.
  split; [vm_compute; reflexivity|].
  split; [reflexivity|]. split; [reflexivity|].
  split; [vm_compute; reflexivity|].
  split; reflexivity.
Qed.

(** ** Painting and moving the cursor *)

Lemma Render_loop_writes h its i cur c :
  Render_loop h its i cur c = writes (row_lines h its i cur) c.
Proof.
  revert i c. induction its as [|item rest IH]; intros i c; [reflexivity|].
  cbn [Render_loop row_lines]. rewrite IH. reflexivity.
Qed.

(** [Render] never panics: it clears, writes the header and the rows,
    hides the terminal cursor and flushes. *)
Lemma Render_ok m w :
  Render m w
  = (Ok (set_out (Flush (writes (painted (heap w) m) (Clear (out m)))) m),
     snd (Printf hideCursor w)).
Proof.
  unfold Render, bind, Printf, ret, painted, Fprintln. cbn.
  rewrite Render_loop_writes. reflexivity.
Qed.

Lemma cursorDown_ok m w :
  selectable m <> 0 ->
  exists m' w',
    cursorDown m w = (Ok m', w')
    /\ cursor m' = Z.rem (wrap (cursor m + 1)) (selectable m)
    /\ items m' = items m /\ selectable m' = selectable m
    /\ results m' = results m /\ heap w' = heap w.
Proof.
  intros Hs. unfold cursorDown, go_rem.
  destruct (Z.eqb_spec (selectable m) 0) as [|_]; [contradiction|].
  rewrite Render_ok. eexists _, _. repeat split.
Qed.

Lemma cursorUp_ok m w :
  selectable m <> 0 ->
  exists m' w',
    cursorUp m w = (Ok m', w')
    /\ cursor m' = Z.rem (wrap (wrap (cursor m + selectable m) - 1)) (selectable m)
    /\ items m' = items m /\ selectable m' = selectable m
    /\ results m' = results m /\ heap w' = heap w.
Proof.
  intros Hs. unfold cursorUp, go_rem.
  destruct (Z.eqb_spec (selectable m) 0) as [|_]; [contradiction|].
  rewrite Render_ok. eexists _, _. repeat split.
Qed.

Lemma down_value c s :
  0 <= c < s -> s <= max_rows ->
  Z.rem (wrap (c + 1)) s = if c + 1 =? s then 0 else c + 1.
Proof.
  unfold max_rows. intros Hc Hs.
  rewrite wrap_small by (unfold in_range, int_min, int_max; lia).
  destruct (Z.eqb_spec (c + 1) s) as [->|Hne].
  - apply Z.rem_same. lia.
  - apply Z.rem_small. lia.
Qed.

Lemma up_value c s :
  0 <= c < s -> s <= max_rows ->
  Z.rem (wrap (wrap (c + s) - 1)) s = if c =? 0 then s - 1 else c - 1.
Proof.
  unfold max_rows. intros Hc Hs.
  rewrite (wrap_small (c + s)) by (unfold in_range, int_min, int_max; lia).
  rewrite wrap_small by (unfold in_range, int_min, int_max; lia).
  rewrite Z.rem_mod_nonneg by lia.
  destruct (Z.eqb_spec c 0) as [->|Hne].
  - apply Z.mod_small. lia.
  - replace (c + s - 1) with (c - 1 + 1 * s) by lia.
    rewrite Z_mod_plus_full. apply Z.mod_small. lia.
Qed.

(** C9: with a positive selectable count (the count of rows of a slice in
    memory, hence at most [max_rows]) and the cursor within it, [cursorDown]
    then [cursorUp], and [cursorUp] then [cursorDown], both succeed and
    bring the cursor back to where it was. *)
Theorem cursorDown_cursorUp_inverse (m : Menu) (w : World) :
  0 < selectable m -> selectable m <= max_rows ->
  0 <= cursor m < selectable m ->
  (exists m1 w1 m2 w2,
      cursorDown m w = (Ok m1, w1) /\ cursorUp m1 w1 = (Ok m2, w2)
      /\ cursor m2 = cursor m)
  /\ (exists m1 w1 m2 w2,
      cursorUp m w = (Ok m1, w1) /\ cursorDown m1 w1 = (Ok m2, w2)
      /\ cursor m2 = cursor m).
Proof.
  intros Hpos Hmax Hcur. split.
  - destruct (cursorDown_ok m w) as (m1 & w1 & E1 & C1 & _ & S1 & _); [lia|].
    destruct (cursorUp_ok m1 w1) as (m2 & w2 & E2 & C2 & _); [lia|].
    exists m1, w1, m2, w2. repeat split; try assumption.
    rewrite C2, S1, C1. rewrite down_value by lia.
    destruct (Z.eqb_spec (cursor m + 1) (selectable m)).
    + rewrite up_value by lia. cbn. lia.
    + rewrite up_value by lia.
      destruct (Z.eqb_spec (cursor m + 1) 0); lia.
  - destruct (cursorUp_ok m w) as (m1 & w1 & E1 & C1 & _ & S1 & _); [lia|].
    destruct (cursorDown_ok m1 w1) as (m2 & w2 & E2 & C2 & _); [lia|].
    exists m1, w1, m2, w2. repeat split; try assumption.
    rewrite C2, S1, C1. rewrite up_value by lia.
    destruct (Z.eqb_spec (cursor m) 0).
    + rewrite down_value by lia.
      destruct (Z.eqb_spec (selectable m - 1 + 1) (selectable m)); lia.
    + rewrite down_value by lia.
      destruct (Z.eqb_spec (cursor m - 1 + 1) (selectable m)); lia.
Qed.

(** C10: with a positive selectable count, [cursorDown] and [cursorUp]
    succeed and leave the rows (with their selected flags), the selectable
    count, the result data and the descriptors the rows point at as they
    were. *)
Theorem cursor_moves_keep_rows (m : Menu) (w : World) :
  0 < selectable m ->
  (exists m' w',
      cursorDown m w = (Ok m', w')
      /\ items m' = items m /\ selectable m' = selectable m
      /\ results m' = results m /\ heap w' = heap w)
  /\ (exists m' w',
      cursorUp m w = (Ok m', w')
      /\ items m' = items m /\ selectable m' = selectable m
      /\ results m' = results m /\ heap w' = heap w).
Proof.
  intros Hpos. split.
  - destruct (cursorDown_ok m w) as (m' & w' & E & _ & H); [lia|].
    exists m', w'. split; assumption.
  - destruct (cursorUp_ok m w) as (m' & w' & E & _ & H); [lia|].
    exists m', w'. split; assumption.
Qed.

(** ** The redraw buffer *)

Lemma line_breaks_nonneg p : 0 <= line_breaks p.
Proof.
  induction p as [|b p IH]; cbn [line_breaks]; [lia|].
  destruct (Ascii.eqb b "010"); lia.
Qed.

Lemma total_line_breaks_nonneg ps : 0 <= total_line_breaks ps.
Proof.
  induction ps as [|p ps IH]; cbn; [lia|].
  pose proof (line_breaks_nonneg p). unfold total_line_breaks in IH. lia.
Qed.

(** The counter of [Write] is the exact count, wrapped. *)
Lemma count_lines_wrap p n :
  in_range n -> count_lines p n = wrap (n + line_breaks p).
Proof.
  revert n. induction p as [|b p IH]; intros n Hn; cbn [count_lines line_breaks].
  - rewrite Z.add_0_r. symmetry. apply wrap_small, Hn.
  - destruct (Ascii.eqb b "010").
    + rewrite IH by apply wrap_in_range.
      rewrite wrap_add_l. f_equal. lia.
    + rewrite IH by assumption. f_equal.
Qed.

Lemma count_lines_in_range p n : in_range n -> in_range (count_lines p n).
Proof. intros Hn. rewrite count_lines_wrap by assumption. apply wrap_in_range. Qed.

Lemma writes_wf ps c : wf (writes ps c) = (wf c ++ map Written ps)%list.
Proof.
  revert c. induction ps as [|p ps IH]; intros c; cbn.
  - symmetry. apply app_nil_r.
  - unfold writes in IH. rewrite IH. cbn. rewrite <- app_assoc. reflexivity.
Qed.

Lemma writes_lines ps c :
  in_range (lines c) ->
  lines (writes ps c) = wrap (lines c + total_line_breaks ps).
Proof.
  revert c. induction ps as [|p ps IH]; intros c Hc; cbn.
  - rewrite Z.add_0_r. symmetry. apply wrap_small, Hc.
  - unfold writes in IH. rewrite IH by (cbn; apply count_lines_in_range, Hc).
    cbn. rewrite count_lines_wrap by assumption.
    rewrite wrap_add_l. f_equal. unfold total_line_breaks. lia.
Qed.

Lemma zero_in_range : in_range 0.
Proof. unfold in_range, int_min, int_max. lia. Qed.

(** From a counter at zero, the counter is the number of line breaks
    written. *)
Lemma writes_from_zero ps c :
  lines c = 0 ->
  total_line_breaks ps <= int_max ->
  lines (writes ps c) = total_line_breaks ps.
Proof.
  intros Hz Hmax. rewrite writes_lines by (rewrite Hz; apply zero_in_range).
  rewrite Hz. cbn.
  apply wrap_small. pose proof (total_line_breaks_nonneg ps).
  unfold in_range, int_min, int_max in *. lia.
Qed.

Lemma writes_after_Clear ps c :
  total_line_breaks ps <= int_max ->
  lines (writes ps (Clear c)) = total_line_breaks ps.
Proof. apply writes_from_zero. reflexivity. Qed.

#[local] Arguments writes : simpl never.
#[local] Arguments painted : simpl never.
#[local] Arguments clearLines : simpl never.

(** C8: bytes written through [Write] reach the sink unchanged and, as long
    as their line breaks fit an [int], the counter equals the number of line
    breaks written since the buffer was made or since the last [Clear];
    [Clear] hands the sink the bytes ESC, "[", the decimal digits of exactly
    that count and "A" (cursor up by that many lines), and resets the
    counter; and the [Clear] of the [Render] that follows a [Render] moves up
    by the number of line breaks that earlier [Render] wrote. *)
Theorem Clear_moves_up_by_lines_written
    (c : ClearableWriter) (ps : list string) (m m' : Menu) (w w' : World) :
  total_line_breaks ps <= int_max ->
  total_line_breaks (painted (heap w) m) <= int_max ->
  out m' = out (menu_of (Render m w)) ->
  wf (writes ps (Clear c)) = (wf (Clear c) ++ map Written ps)%list
  /\ lines (writes ps (NewClearableWriter (wf c))) = total_line_breaks ps
  /\ lines (writes ps (Clear c)) = total_line_breaks ps
  /\ wf (Clear (writes ps (Clear c)))
     = (wf (writes ps (Clear c))
          ++ [Written (String "027"%char
                         ("[" ++ pretty (total_line_breaks ps) ++ "A"))])%list
  /\ lines (Clear (writes ps (Clear c))) = 0
  /\ exists m1 w1 m2 w2,
       Render m w = (Ok m1, w1)
       /\ wf (out m1)
          = (wf (out m)
               ++ Written (String "027"%char
                             ("[" ++ pretty (lines (out m)) ++ "A"))
               :: map Written (painted (heap w) m) ++ [Flushed])%list
       /\ Render m' w' = (Ok m2, w2)
       /\ wf (out m2)
          = (wf (out m1)
               ++ Written (String "027"%char
                             ("[" ++ pretty (total_line_breaks
                                               (painted (heap w) m)) ++ "A"))
               :: map Written (painted (heap w') m') ++ [Flushed])%list.
Proof.
  intros Hps Hpaint Hout.
  split; [apply writes_wf|].
  split; [apply writes_from_zero; [reflexivity|exact Hps]|].
  split; [apply writes_after_Clear, Hps|].
  split; [cbn; rewrite writes_after_Clear by assumption; reflexivity|].
  split; [reflexivity|].
  rewrite Render_ok in Hout. cbn in Hout.
  rewrite (Render_ok m w), (Render_ok m' w').
  eexists _, _, _, _. split; [reflexivity|].
  split.
  { cbn. rewrite writes_wf. cbn. rewrite <- !app_assoc. reflexivity. }
  split; [reflexivity|].
  cbn. rewrite writes_wf. cbn. rewrite Hout. cbn.
  rewrite writes_after_Clear by assumption.
  rewrite <- !app_assoc. reflexivity.
Qed.

(** ** Aborting the interaction *)






(** ** Construction and the verbosity filter *)

Lemma AddItem_items mi m : items (AddItem mi m) = (items m ++ [mi])%list.
Proof. reflexivity. Qed.

Lemma range_PerContainer_items i st p upds m h :
  items (fst (range_PerContainer i st p upds m h))
  = (items m ++ map (fun _ => update_row i st p) upds)%list.
Proof.
  revert m h. induction upds as [|u rest IH]; intros m h; cbn.
  - symmetry. apply app_nil_r.
  - rewrite IH, AddItem_items, <- app_assoc. reflexivity.
Qed.

(** The cell of the loop variable ends up holding the last update. *)
Lemma range_PerContainer_heap i st p upds m h :
  snd (range_PerContainer i st p upds m h)
  = match upds with
    | [] => h
    | _ :: _ => <[p := List.last upds zeroContainerUpdate]> h
    end.
Proof.
  revert m h. induction upds as [|u rest IH]; intros m h; [reflexivity|].
  cbn [range_PerContainer]. rewrite IH.
  destruct rest as [|u' rest]; [reflexivity|].
  rewrite list_insert_insert_eq. reflexivity.
Qed.

Lemma view_agree h h' i :
  valid_row h i ->
  (forall q, (q < length h)%nat -> h' !! q = h !! q) ->
  view h' i = view h i.
Proof.
  unfold valid_row, view, deref. intros Hv Hh.
  destruct (update i) as [p|]; [|reflexivity].
  cbn. rewrite Hh by assumption. reflexivity.
Qed.

Lemma views_agree h h' its :
  Forall (valid_row h) its ->
  (forall q, (q < length h)%nat -> h' !! q = h !! q) ->
  map (view h') its = map (view h) its.
Proof.
  intros Hv Hh. induction Hv as [|i its Hi _ IH]; [reflexivity|].
  cbn. rewrite IH, (view_agree h h' i) by assumption. reflexivity.
Qed.

Lemma valid_row_mono h h' i :
  (length h <= length h')%nat -> valid_row h i -> valid_row h' i.
Proof. unfold valid_row. destruct (update i); [lia|trivial]. Qed.

(** What one iteration of [fromResults] adds to the rows, as seen through
    the heap it leaves. *)
Lemma fromResults_body_rows results verbosity serviceID m h :
  Forall (valid_row h) (items m) ->
  let r := fromResults_body results verbosity serviceID m h in
  map (view (snd r)) (items (fst r))
  = (map (view h) (items m) ++ contribution results verbosity serviceID)%list
  /\ Forall (valid_row (snd r)) (items (fst r)).
Proof.
  intros Hv. unfold fromResults_body, contribution. cbv zeta.
  set (i := MustParseResourceID serviceID).
  set (res := result_at results i).
  destruct (skips (Status res) verbosity).
  { cbn. rewrite app_nil_r. split; [reflexivity|assumption]. }
  set (m1 := if negb (String.eqb (Error res) "") then AddItem _ m else m).
  set (h1 := (h ++ [zeroContainerUpdate])%list).
  set (r := range_PerContainer _ _ _ _ _ _).
  assert (Hlen1 : length h1 = S (length h))
    by (unfold h1; rewrite length_app; cbn; lia).
  assert (Hh : snd r = match PerContainer res with
                       | [] => h1
                       | _ :: _ => <[length h :=
                            List.last (PerContainer res) zeroContainerUpdate]> h1
                       end)
    by apply range_PerContainer_heap.
  assert (Hlen : length (snd r) = S (length h)).
  { rewrite Hh. destruct (PerContainer res); [|rewrite length_insert]; exact Hlen1. }
  assert (Hold : forall q, (q < length h)%nat -> snd r !! q = h !! q).
  { intros q Hq. rewrite Hh.
    destruct (PerContainer res).
    - unfold h1. apply lookup_app_l, Hq.
    - rewrite list_lookup_insert_ne by lia. unfold h1. apply lookup_app_l, Hq. }
  assert (Hitems : items (fst r)
                   = (items m1 ++ map (fun _ => update_row i (Status res) (length h))
                                    (PerContainer res))%list)
    by apply range_PerContainer_items.
  assert (Hnew : map (view (snd r))
                   (map (fun _ => update_row i (Status res) (length h))
                      (PerContainer res))
                 = map (fun _ => (i, Status res, "",
                          Some (List.last (PerContainer res) zeroContainerUpdate),
                          false)) (PerContainer res)).
  { rewrite List.map_map. apply List.map_ext_in. intros u Hin.
    unfold view, update_row, deref. cbn. rewrite Hh.
    destruct (PerContainer res) as [|u0 us]; [destruct Hin|].
    rewrite list_lookup_insert_eq by lia. reflexivity. }
  assert (Hm1 : items m1
                = (items m ++ if negb (String.eqb (Error res) "")
                              then [{| id := i; status := Status res;
                                       error := Error res; update := None;
                                       selected := false |}]
                              else [])%list).
  { unfold m1. destruct (negb _); [reflexivity|]. symmetry. apply app_nil_r. }
  split.
  - rewrite Hitems, Hm1, !List.map_app, Hnew.
    rewrite (views_agree h (snd r) (items m)) by assumption.
    unfold resource_rows. rewrite <- app_assoc. f_equal. f_equal.
    destruct (negb _); reflexivity.
  - rewrite Hitems, Hm1, !Forall_app. repeat split.
    + eapply Forall_impl; [exact Hv|]. intros x. apply valid_row_mono. lia.
    + destruct (negb _); repeat constructor.
    + apply Forall_forall. intros x Hx.
      apply list_elem_of_In, List.in_map_iff in Hx as (u & <- & _).
      unfold valid_row, update_row. cbn. lia.
Qed.

Lemma fromResults_loop_rows results verbosity ids m h :
  Forall (valid_row h) (items m) ->
  let r := fromResults_loop results verbosity ids m h in
  map (view (snd r)) (items (fst r))
  = (map (view h) (items m)
       ++ flat_map (contribution results verbosity) ids)%list.
Proof.
  revert m h. induction ids as [|s ids IH]; intros m h Hv; cbn.
  - symmetry. apply app_nil_r.
  - pose proof (fromResults_body_rows results verbosity s m h Hv) as [E V].
    destruct (fromResults_body results verbosity s m h) as [m1 h1].
    cbn in E, V. rewrite (IH m1 h1 V), E, <- app_assoc. reflexivity.
Qed.

(** The rows of a new menu: the contributions of the identifiers in order. *)
Lemma NewMenu_rows results verbosity w :
  rows_of (NewMenu results verbosity w)
  = flat_map (contribution results verbosity) (ServiceIDs results).
Proof.
  unfold NewMenu, fromResults, rows_of.
  pose proof (fromResults_loop_rows results verbosity (ServiceIDs results)
                {| out := NewClearableWriter []; results := results;
                   items := []; cursor := 0; selectable := 0 |} (heap w)
                (List.Forall_nil _)) as E.
  destruct (fromResults_loop _ _ _ _ _) as [m1 h1]. exact E.
Qed.

Lemma skips_threshold_rule st v : skips st v = threshold_rule st v.
Proof.
  unfold skips, threshold_rule, ReleaseStatusIgnored, ReleaseStatusSkipped.
  destruct (String.eqb_spec st "ignored") as [->|_]; cbn.
  - destruct (v <? 2); reflexivity.
  - destruct (String.eqb st "skipped"); reflexivity.
Qed.

Lemma skips_mono st v : skips st (v + 1) = true -> skips st v = true.
Proof.
  unfold skips.
  destruct (String.eqb st ReleaseStatusIgnored);
    [|destruct (String.eqb st ReleaseStatusSkipped)]; lia.
Qed.

Lemma contribution_mono results v serviceID :
  contribution results v serviceID
    `sublist_of` contribution results (v + 1) serviceID.
Proof.
  unfold contribution.
  destruct (skips _ (v + 1)) eqn:E.
  - rewrite (skips_mono _ _ E). constructor.
  - destruct (skips _ v); [apply sublist_nil_l|reflexivity].
Qed.

Lemma flat_map_sublist {A B} (f g : A -> list B) l :
  (forall x, f x `sublist_of` g x) ->
  flat_map f l `sublist_of` flat_map g l.
Proof.
  intros H. induction l as [|x l IH]; cbn; [constructor|].
  apply sublist_app; [apply H|apply IH].
Qed.

(** C7: at every verbosity, the [switch] of [fromResults] skips a resource
    exactly under the threshold rule; the rows of the new menu are, in the
    order of the identifiers, nothing for a resource the rule skips and the
    rows of the resource otherwise; and the rows at verbosity [v] are a
    sublist of the rows at [v + 1]. *)
Theorem fromResults_filters_by_verbosity
    (results : Result) (w : World) (v : Z) :
  (forall st, skips st v = threshold_rule st v)
  /\ rows_of (NewMenu results v w)
     = flat_map (fun serviceID =>
                   let res := result_at results serviceID in
                   if threshold_rule (Status res) v then []
                   else resource_rows serviceID res)
         (ServiceIDs results)
  /\ rows_of (NewMenu results v w)
       `sublist_of` rows_of (NewMenu results (v + 1) w).
Proof.
  split; [intros st; apply skips_threshold_rule|].
  split.
  - rewrite NewMenu_rows. apply List.flat_map_ext. intros sid.
    unfold contribution, MustParseResourceID.
    rewrite skips_threshold_rule. reflexivity.
  - rewrite !NewMenu_rows. apply flat_map_sublist, contribution_mono.
Qed.

(** ** The properties at sample inputs *)

Lemma cursorDown_cursorUp_inverse_witness :
  (0 < selectable sample_menu /\ selectable sample_menu <= max_rows
   /\ 0 <= cursor sample_menu < selectable sample_menu)
  /\ (exists m1 w1 m2 w2,
        cursorDown sample_menu sample_world = (Ok m1, w1)
        /\ cursorUp m1 w1 = (Ok m2, w2)
        /\ cursor m2 = cursor sample_menu)
  /\ (exists m1 w1 m2 w2,
        cursorUp sample_menu sample_world = (Ok m1, w1)
        /\ cursorDown m1 w1 = (Ok m2, w2)
        /\ cursor m2 = cursor sample_menu).
Proof.
  split.
  - vm_compute. repeat split; discriminate.
  - apply (cursorDown_cursorUp_inverse sample_menu sample_world).
    + reflexivity.
    + vm_compute. discriminate.
    + vm_compute. split; [discriminate|reflexivity].
Defined.

Lemma cursor_moves_keep_rows_witness :
  0 < selectable sample_menu
  /\ (exists m' w',
        cursorDown sample_menu sample_world = (Ok m', w')
        /\ items m' = items sample_menu
        /\ selectable m' = selectable sample_menu
        /\ results m' = results sample_menu
        /\ heap w' = heap sample_world)
  /\ (exists m' w',
        cursorUp sample_menu sample_world = (Ok m', w')
        /\ items m' = items sample_menu
        /\ selectable m' = selectable sample_menu
        /\ results m' = results sample_menu
        /\ heap w' = heap sample_world).
Proof.
  split; [reflexivity|].
  apply (cursor_moves_keep_rows sample_menu sample_world). reflexivity.
Defined.


Lemma Clear_moves_up_by_lines_written_witness :
  let c := NewClearableWriter [] in
  let ps := painted (heap sample_world) sample_menu in
  let m := sample_menu in
  let w := sample_world in
  let m' := set_cursor 1 (menu_of (Render m w)) in
  (total_line_breaks ps = 3 /\ out m' = out (menu_of (Render m w))
   /\ wf (Clear (writes ps (Clear c)))
      = (wf (writes ps (Clear c)) ++ [Written (String "027"%char "[3A")])%list
   /\ wf (Clear (writes (ps ++ ps ++ ps ++ ps) (Clear c)))
      = (wf (writes (ps ++ ps ++ ps ++ ps) (Clear c))
           ++ [Written (String "027"%char "[12A")])%list)
  /\ wf (writes ps (Clear c)) = (wf (Clear c) ++ map Written ps)%list
  /\ lines (writes ps (NewClearableWriter (wf c))) = total_line_breaks ps
  /\ lines (writes ps (Clear c)) = total_line_breaks ps
  /\ wf (Clear (writes ps (Clear c)))
     = (wf (writes ps (Clear c))
          ++ [Written (String "027"%char
                         ("[" ++ pretty (total_line_breaks ps) ++ "A"))])%list
  /\ lines (Clear (writes ps (Clear c))) = 0
  /\ exists m1 w1 m2 w2,
       Render m w = (Ok m1, w1)
       /\ wf (out m1)
          = (wf (out m)
               ++ Written (String "027"%char
                             ("[" ++ pretty (lines (out m)) ++ "A"))
               :: map Written (painted (heap w) m) ++ [Flushed])%list
       /\ Render m' w = (Ok m2, w2)
       /\ wf (out m2)
          = (wf (out m1)
               ++ Written (String "027"%char
                             ("[" ++ pretty (total_line_breaks
                                               (painted (heap w) m)) ++ "A"))
               :: map Written (painted (heap w) m') ++ [Flushed])%list.
Proof.
  intros c ps m w m'. split.
  - split; [reflexivity|]. split; [reflexivity|].
    split; vm_compute; reflexivity.
  - apply (Clear_moves_up_by_lines_written c ps m m' w w).
    + vm_compute. discriminate.
    + vm_compute. discriminate.
    + reflexivity.
Defined.

(** ** The end-to-end scenarios of the specification *)

(** Scenario A: one succeeded resource with two container updates gives two
    selectable rows and no other row. *)
Example scenario_two_updates :
  map MenuItem_selectable (items sample_menu) = [true; true]
  /\ selectable sample_menu = 2.
Proof. split; reflexivity. Qed.

(** Scenario B: an ignored resource with an error shows no row at
    verbosity 0 and its error row at verbosity 2. *)
Example scenario_ignored_resource :
  rows_of (NewMenu ignored_and_skipped 0 world0) = []
  /\ rows_of (NewMenu ignored_and_skipped 1 world0)
     = [("default:deployment/s", "skipped", "", Some web_update, false)]
  /\ rows_of (NewMenu ignored_and_skipped 2 world0)
     = [("default:deployment/i", "ignored", "locked", None, false);
        ("default:deployment/s", "skipped", "", Some web_update, false)].
Proof. repeat split. Qed.

(** * Further properties of the menu *)

(** ** The selectable counter *)

Lemma count_selectable_app l1 l2 :
  count_selectable (l1 ++ l2) = count_selectable l1 + count_selectable l2.
Proof.
  unfold count_selectable. rewrite List.filter_app, length_app. lia.
Qed.

Lemma count_selectable_nonneg l : 0 <= count_selectable l.
Proof. unfold count_selectable. lia. Qed.

Lemma AddItem_counted mi m : counted m -> counted (AddItem mi m).
Proof.
  unfold counted. intros H. cbn [AddItem selectable items].
  rewrite count_selectable_app. unfold count_selectable at 2. cbn [List.filter].
  destruct (MenuItem_selectable mi); cbn [length].
  - rewrite H, wrap_add_l. reflexivity.
  - rewrite Z.add_0_r. exact H.
Qed.

Lemma range_PerContainer_counted i st p upds m h :
  counted m -> counted (fst (range_PerContainer i st p upds m h)).
Proof.
  revert m h. induction upds as [|u rest IH]; intros m h H; [exact H|].
  cbn [range_PerContainer]. apply IH, AddItem_counted, H.
Qed.

Lemma fromResults_body_counted results v s m h :
  counted m -> counted (fst (fromResults_body results v s m h)).
Proof.
  intros H. unfold fromResults_body. cbv zeta.
  destruct (skips _ _); [exact H|].
  apply range_PerContainer_counted.
  destruct (negb _); [apply AddItem_counted, H|exact H].
Qed.

Lemma fromResults_loop_counted results v ids m h :
  counted m -> counted (fst (fromResults_loop results v ids m h)).
Proof.
  revert m h. induction ids as [|s ids IH]; intros m h H; [exact H|].
  cbn [fromResults_loop].
  pose proof (fromResults_body_counted results v s m h H) as H1.
  destruct (fromResults_body results v s m h) as [m1 h1]. apply IH, H1.
Qed.

Lemma NewMenu_ok results v w :
  NewMenu results v w = (Ok (menu_of (NewMenu results v w)),
                         snd (NewMenu results v w)).
Proof.
  unfold NewMenu, fromResults, menu_of.
  destruct (fromResults_loop _ _ _ _ _). reflexivity.
Qed.

(** X1: the menu [NewMenu] builds has, in [selectable], the number of its
    rows that carry an update descriptor (a number that fits an [int]). *)
Theorem NewMenu_selectable_counts_rows (results : Result) (v : Z) (w : World) :
  count_selectable (items (menu_of (NewMenu results v w))) <= int_max ->
  selectable (menu_of (NewMenu results v w))
  = count_selectable (items (menu_of (NewMenu results v w))).
Proof.
  intros Hfit.
  assert (H : counted (menu_of (NewMenu results v w))).
  { unfold NewMenu, fromResults, menu_of.
    pose proof (fromResults_loop_counted results v (ServiceIDs results)
                  {| out := NewClearableWriter []; results := results;
                     items := []; cursor := 0; selectable := 0 |} (heap w)
                  eq_refl) as H.
    destruct (fromResults_loop _ _ _ _ _). exact H. }
  rewrite H. apply wrap_small.
  pose proof (count_selectable_nonneg (items (menu_of (NewMenu results v w)))).
  unfold in_range, int_min, int_max in *. lia.
Qed.

Lemma NewMenu_selectable_counts_rows_witness :
  count_selectable (items (menu_of (NewMenu two_containers 0 world0))) <= int_max
  /\ selectable (menu_of (NewMenu two_containers 0 world0))
     = count_selectable (items (menu_of (NewMenu two_containers 0 world0))).
Proof.
  assert (H : count_selectable
                (items (menu_of (NewMenu two_containers 0 world0))) <= int_max)
    by (vm_compute; discriminate).
  split; [exact H|].
  exact (NewMenu_selectable_counts_rows two_containers 0 world0 H).
Defined.

(** ** Toggling *)

Lemma index_Some {A} (l : list A) (i : Z) :
  0 <= i < Z.of_nat (length l) ->
  exists x, index l i = Some x /\ l !! Z.to_nat i = Some x.
Proof.
  intros Hi. unfold index.
  destruct (Z.ltb_spec i 0) as [|_]; [lia|].
  destruct (lookup_lt_is_Some_2 l (Z.to_nat i)) as [x Hx]; [lia|].
  exists x. split; exact Hx.
Qed.

Lemma index_None {A} (l : list A) (i : Z) :
  ~ (0 <= i < Z.of_nat (length l)) -> index l i = None.
Proof.
  intros Hi. unfold index.
  destruct (Z.ltb_spec i 0) as [|Hge]; [reflexivity|].
  apply lookup_ge_None_2. lia.
Qed.

Lemma toggleCursor_ok m w it :
  index (items m) (cursor m) = Some it ->
  toggleCursor m w
  = Render (set_items (<[Z.to_nat (cursor m) := flip_selected it]> (items m)) m) w.
Proof. intros H. unfold toggleCursor. rewrite H. reflexivity. Qed.

Lemma toggleCursor_effect_on_rows (m : Menu) (w : World) :
  0 <= cursor m < Z.of_nat (length (items m)) ->
  exists it m' w',
    items m !! Z.to_nat (cursor m) = Some it
    /\ toggleCursor m w = (Ok m', w')
    /\ items m' = <[Z.to_nat (cursor m) := flip_selected it]> (items m)
    /\ items m' !! Z.to_nat (cursor m) = Some (flip_selected it)
    /\ (forall j, j <> Z.to_nat (cursor m) -> items m' !! j = items m !! j)
    /\ length (items m') = length (items m)
    /\ cursor m' = cursor m /\ selectable m' = selectable m
    /\ results m' = results m /\ heap w' = heap w.
Proof.
  intros Hc. destruct (index_Some (items m) (cursor m) Hc) as (it & Hi & Hl).
  exists it. rewrite (toggleCursor_ok m w it Hi), Render_ok.
  eexists _, _. split; [exact Hl|]. split; [reflexivity|].
  cbn [items set_out set_items cursor selectable results].
  split; [reflexivity|].
  split; [apply list_lookup_insert_eq; lia|].
  split; [intros j Hj; apply list_lookup_insert_ne; congruence|].
  split; [apply length_insert|].
  repeat split.
Qed.

(** X2: with the cursor on a row, [toggleCursor] succeeds; it flips the
    selected flag of the row at the cursor's index and changes no other row,
    nor the cursor, the selectable count, the result data or any
    descriptor. *)
Theorem toggleCursor_flips_one_row (m : Menu) (w : World) :
  0 <= cursor m < Z.of_nat (length (items m)) ->
  exists it m' w',
    items m !! Z.to_nat (cursor m) = Some it
    /\ toggleCursor m w = (Ok m', w')
    /\ items m' = <[Z.to_nat (cursor m) := flip_selected it]> (items m)
    /\ items m' !! Z.to_nat (cursor m) = Some (flip_selected it)
    /\ (forall j, j <> Z.to_nat (cursor m) -> items m' !! j = items m !! j)
    /\ length (items m') = length (items m)
    /\ cursor m' = cursor m /\ selectable m' = selectable m
    /\ results m' = results m /\ heap w' = heap w.
Proof. apply toggleCursor_effect_on_rows. Qed.

Lemma toggleCursor_flips_one_row_witness :
  0 <= cursor sample_menu < Z.of_nat (length (items sample_menu))
  /\ exists it m' w',
    items sample_menu !! Z.to_nat (cursor sample_menu) = Some it
    /\ toggleCursor sample_menu sample_world = (Ok m', w')
    /\ items m'
       = <[Z.to_nat (cursor sample_menu) := flip_selected it]> (items sample_menu)
    /\ items m' !! Z.to_nat (cursor sample_menu) = Some (flip_selected it)
    /\ (forall j, j <> Z.to_nat (cursor sample_menu) ->
                  items m' !! j = items sample_menu !! j)
    /\ length (items m') = length (items sample_menu)
    /\ cursor m' = cursor sample_menu /\ selectable m' = selectable sample_menu
    /\ results m' = results sample_menu /\ heap w' = heap sample_world.
Proof.
  assert (H : 0 <= cursor sample_menu < Z.of_nat (length (items sample_menu)))
    by (vm_compute; split; [discriminate|reflexivity]).
  split; [exact H|].
  exact (toggleCursor_flips_one_row sample_menu sample_world H).
Defined.

Lemma flip_selected_involutive it : flip_selected (flip_selected it) = it.
Proof.
  destruct it as [i st e u s]. unfold flip_selected, set_selected. cbn.
  rewrite negb_involutive. reflexivity.
Qed.

(** X3: with the cursor on a row, two [toggleCursor] in a row succeed and
    leave every row, selected flags included, as it was. *)
Theorem toggleCursor_twice (m : Menu) (w : World) :
  0 <= cursor m < Z.of_nat (length (items m)) ->
  exists m1 w1 m2 w2,
    toggleCursor m w = (Ok m1, w1)
    /\ toggleCursor m1 w1 = (Ok m2, w2)
    /\ items m2 = items m /\ cursor m2 = cursor m
    /\ selectable m2 = selectable m.
Proof.
  intros Hc.
  destruct (toggleCursor_effect_on_rows m w Hc)
    as (it & m1 & w1 & Hit & E1 & I1 & L1 & _ & Len1 & C1 & S1 & _).
  assert (Hc1 : 0 <= cursor m1 < Z.of_nat (length (items m1)))
    by (rewrite C1, Len1; exact Hc).
  destruct (toggleCursor_effect_on_rows m1 w1 Hc1)
    as (it1 & m2 & w2 & Hit1 & E2 & I2 & _ & _ & _ & C2 & S2 & _).
  exists m1, w1, m2, w2. split; [exact E1|]. split; [exact E2|].
  rewrite C1 in Hit1, I2. rewrite L1 in Hit1. injection Hit1 as <-.
  split; [|split; congruence].
  rewrite I2, I1, list_insert_insert_eq, flip_selected_involutive.
  apply list_insert_id, Hit.
Qed.

Lemma toggleCursor_twice_witness :
  0 <= cursor sample_menu < Z.of_nat (length (items sample_menu))
  /\ exists m1 w1 m2 w2,
    toggleCursor sample_menu sample_world = (Ok m1, w1)
    /\ toggleCursor m1 w1 = (Ok m2, w2)
    /\ items m2 = items sample_menu /\ cursor m2 = cursor sample_menu
    /\ selectable m2 = selectable sample_menu.
Proof.
  assert (H : 0 <= cursor sample_menu < Z.of_nat (length (items sample_menu)))
    by (vm_compute; split; [discriminate|reflexivity]).
  split; [exact H|].
  exact (toggleCursor_twice sample_menu sample_world H).
Defined.

(** X4: with the cursor outside the rows (below zero, or at or beyond their
    number, as on a menu without rows), [toggleCursor] panics with an index
    out of range before anything is painted: the world is untouched. *)
Theorem toggleCursor_out_of_range (m : Menu) (w : World) :
  ~ (0 <= cursor m < Z.of_nat (length (items m))) ->
  toggleCursor m w = (Panic IndexOutOfRange, w).
Proof.
  intros Hc. unfold toggleCursor. rewrite (index_None _ _ Hc). reflexivity.
Qed.

Lemma toggleCursor_out_of_range_witness :
  ~ (0 <= cursor (set_cursor 2 sample_menu)
       < Z.of_nat (length (items (set_cursor 2 sample_menu))))
  /\ toggleCursor (set_cursor 2 sample_menu) sample_world
     = (Panic IndexOutOfRange, sample_world).
Proof.
  assert (H : ~ (0 <= cursor (set_cursor 2 sample_menu)
                   < Z.of_nat (length (items (set_cursor 2 sample_menu)))))
    by (vm_compute; intros [_ H]; discriminate H).
  split; [exact H|].
  exact (toggleCursor_out_of_range (set_cursor 2 sample_menu) sample_world H).
Defined.

(** ** Walking the cursor *)

Lemma down_value_mod c s :
  0 <= c < s -> s <= max_rows -> Z.rem (wrap (c + 1)) s = (c + 1) mod s.
Proof.
  intros Hc Hs. rewrite down_value by assumption.
  destruct (Z.eqb_spec (c + 1) s) as [->|Hne].
  - symmetry. apply Z_mod_same_full.
  - symmetry. apply Z.mod_small. lia.
Qed.

Lemma up_value_mod c s :
  0 <= c < s -> s <= max_rows ->
  Z.rem (wrap (wrap (c + s) - 1)) s = (c - 1) mod s.
Proof.
  intros Hc Hs. rewrite up_value by assumption.
  destruct (Z.eqb_spec c 0) as [->|Hne].
  - replace (0 - 1) with (s - 1 + (-1) * s) by lia.
    rewrite Z_mod_plus_full. symmetry. apply Z.mod_small. lia.
  - symmetry. apply Z.mod_small. lia.
Qed.

(** X5: with a positive selectable count (at most [max_rows]) and the cursor
    within it, [cursorDown] moves the cursor to [(cursor + 1) mod selectable]
    and [cursorUp] to [(cursor - 1) mod selectable]: from the last position
    down leads to 0, from 0 up leads to the last position, and the cursor
    stays within the count. *)
Theorem cursor_moves_walk_modulo (m : Menu) (w : World) :
  0 < selectable m -> selectable m <= max_rows ->
  0 <= cursor m < selectable m ->
  exists md wd mu wu,
    cursorDown m w = (Ok md, wd) /\ cursorUp m w = (Ok mu, wu)
    /\ cursor md = (cursor m + 1) mod selectable m
    /\ cursor mu = (cursor m - 1) mod selectable m
    /\ 0 <= cursor md < selectable md
    /\ 0 <= cursor mu < selectable mu
    /\ (cursor m = selectable m - 1 -> cursor md = 0)
    /\ (cursor m = 0 -> cursor mu = selectable m - 1).
Proof.
  intros Hpos Hmax Hc.
  destruct (cursorDown_ok m w) as (md & wd & Ed & Cd & _ & Sd & _); [lia|].
  destruct (cursorUp_ok m w) as (mu & wu & Eu & Cu & _ & Su & _); [lia|].
  exists md, wd, mu, wu.
  rewrite down_value_mod in Cd by lia. rewrite up_value_mod in Cu by lia.
  split; [exact Ed|]. split; [exact Eu|].
  split; [exact Cd|]. split; [exact Cu|].
  rewrite Cd, Cu, Sd, Su.
  split; [apply Z.mod_pos_bound; lia|].
  split; [apply Z.mod_pos_bound; lia|].
  split.
  - intros ->. replace (selectable m - 1 + 1) with (selectable m) by lia.
    apply Z_mod_same_full.
  - intros ->. replace (0 - 1) with (selectable m - 1 + (-1) * selectable m) by lia.
    rewrite Z_mod_plus_full. apply Z.mod_small. lia.
Qed.

Lemma cursor_moves_walk_modulo_witness :
  (0 < selectable sample_menu /\ selectable sample_menu <= max_rows
   /\ 0 <= cursor sample_menu < selectable sample_menu)
  /\ exists md wd mu wu,
    cursorDown sample_menu sample_world = (Ok md, wd)
    /\ cursorUp sample_menu sample_world = (Ok mu, wu)
    /\ cursor md = (cursor sample_menu + 1) mod selectable sample_menu
    /\ cursor mu = (cursor sample_menu - 1) mod selectable sample_menu
    /\ 0 <= cursor md < selectable md
    /\ 0 <= cursor mu < selectable mu
    /\ (cursor sample_menu = selectable sample_menu - 1 -> cursor md = 0)
    /\ (cursor sample_menu = 0 -> cursor mu = selectable sample_menu - 1).
Proof.
  split.
  - vm_compute. repeat split; discriminate.
  - apply (cursor_moves_walk_modulo sample_menu sample_world).
    + reflexivity.
    + vm_compute. discriminate.
    + vm_compute. split; [discriminate|reflexivity].
Defined.

Lemma times_cursorDown n : forall m w,
  0 < selectable m -> selectable m <= max_rows ->
  0 <= cursor m < selectable m ->
  exists m' w',
    times n cursorDown m w = (Ok m', w')
    /\ cursor m' = (cursor m + Z.of_nat n) mod selectable m
    /\ selectable m' = selectable m /\ items m' = items m.
Proof.
  induction n as [|n IH]; intros m w Hpos Hmax Hc.
  - exists m, w. split; [reflexivity|].
    rewrite Z.add_0_r, Z.mod_small by lia. repeat split.
  - destruct (cursorDown_ok m w) as (m1 & w1 & E1 & C1 & I1 & S1 & _); [lia|].
    rewrite down_value_mod in C1 by lia.
    assert (Hc1 : 0 <= cursor m1 < selectable m1)
      by (rewrite C1, S1; apply Z.mod_pos_bound; lia).
    destruct (IH m1 w1) as (m' & w' & E & C & S' & I'); try lia.
    exists m', w'. cbn [times]. unfold bind. rewrite E1.
    split; [exact E|]. rewrite C, S', I', C1, S1, I1.
    split; [|split; reflexivity].
    rewrite Zplus_mod_idemp_l. f_equal. lia.
Qed.

Lemma times_cursorUp n : forall m w,
  0 < selectable m -> selectable m <= max_rows ->
  0 <= cursor m < selectable m ->
  exists m' w',
    times n cursorUp m w = (Ok m', w')
    /\ cursor m' = (cursor m - Z.of_nat n) mod selectable m
    /\ selectable m' = selectable m /\ items m' = items m.
Proof.
  induction n as [|n IH]; intros m w Hpos Hmax Hc.
  - exists m, w. split; [reflexivity|].
    rewrite Z.sub_0_r, Z.mod_small by lia. repeat split.
  - destruct (cursorUp_ok m w) as (m1 & w1 & E1 & C1 & I1 & S1 & _); [lia|].
    rewrite up_value_mod in C1 by lia.
    assert (Hc1 : 0 <= cursor m1 < selectable m1)
      by (rewrite C1, S1; apply Z.mod_pos_bound; lia).
    destruct (IH m1 w1) as (m' & w' & E & C & S' & I'); try lia.
    exists m', w'. cbn [times]. unfold bind. rewrite E1.
    split; [exact E|]. rewrite C, S', I', C1, S1, I1.
    split; [|split; reflexivity].
    rewrite Zminus_mod_idemp_l. f_equal. lia.
Qed.

(** X6: with a positive selectable count (at most [max_rows]) and the cursor
    within it, [n] times [cursorDown] lead to [(cursor + n) mod selectable]
    and [n] times [cursorUp] to [(cursor - n) mod selectable]; as many moves
    as there are selectable rows, in either direction, lead back to the
    starting position. *)
Theorem cursor_moves_cycle (n : nat) (m : Menu) (w : World) :
  0 < selectable m -> selectable m <= max_rows ->
  0 <= cursor m < selectable m ->
  (exists m' w',
      times n cursorDown m w = (Ok m', w')
      /\ cursor m' = (cursor m + Z.of_nat n) mod selectable m)
  /\ (exists m' w',
      times n cursorUp m w = (Ok m', w')
      /\ cursor m' = (cursor m - Z.of_nat n) mod selectable m)
  /\ (exists m' w',
      times (Z.to_nat (selectable m)) cursorDown m w = (Ok m', w')
      /\ cursor m' = cursor m)
  /\ (exists m' w',
      times (Z.to_nat (selectable m)) cursorUp m w = (Ok m', w')
      /\ cursor m' = cursor m).
Proof.
  intros Hpos Hmax Hc.
  split; [|split; [|split]].
  - destruct (times_cursorDown n m w Hpos Hmax Hc) as (m' & w' & E & C & _).
    exists m', w'. split; assumption.
  - destruct (times_cursorUp n m w Hpos Hmax Hc) as (m' & w' & E & C & _).
    exists m', w'. split; assumption.
  - destruct (times_cursorDown (Z.to_nat (selectable m)) m w Hpos Hmax Hc)
      as (m' & w' & E & C & _).
    exists m', w'. split; [exact E|]. rewrite C, Z2Nat.id by lia.
    replace (cursor m + selectable m) with (cursor m + 1 * selectable m) by lia.
    rewrite Z_mod_plus_full. apply Z.mod_small, Hc.
  - destruct (times_cursorUp (Z.to_nat (selectable m)) m w Hpos Hmax Hc)
      as (m' & w' & E & C & _).
    exists m', w'. split; [exact E|]. rewrite C, Z2Nat.id by lia.
    replace (cursor m - selectable m) with (cursor m + (-1) * selectable m) by lia.
    rewrite Z_mod_plus_full. apply Z.mod_small, Hc.
Qed.

Lemma cursor_moves_cycle_witness :
  (0 < selectable sample_menu /\ selectable sample_menu <= max_rows
   /\ 0 <= cursor sample_menu < selectable sample_menu)
  /\ (exists m' w',
      times 3 cursorDown sample_menu sample_world = (Ok m', w')
      /\ cursor m' = (cursor sample_menu + Z.of_nat 3) mod selectable sample_menu)
  /\ (exists m' w',
      times 3 cursorUp sample_menu sample_world = (Ok m', w')
      /\ cursor m' = (cursor sample_menu - Z.of_nat 3) mod selectable sample_menu)
  /\ (exists m' w',
      times (Z.to_nat (selectable sample_menu)) cursorDown
        sample_menu sample_world = (Ok m', w')
      /\ cursor m' = cursor sample_menu)
  /\ (exists m' w',
      times (Z.to_nat (selectable sample_menu)) cursorUp
        sample_menu sample_world = (Ok m', w')
      /\ cursor m' = cursor sample_menu).
Proof.
  split.
  - vm_compute. repeat split; discriminate.
  - apply (cursor_moves_cycle 3 sample_menu sample_world).
    + reflexivity.
    + vm_compute. discriminate.
    + vm_compute. split; [discriminate|reflexivity].
Defined.

(** X7: on a menu whose selectable count is zero, [cursorDown] and
    [cursorUp] panic with a division by zero before anything is painted:
    the world is untouched. *)
Theorem cursor_moves_divide_by_zero (m : Menu) (w : World) :
  selectable m = 0 ->
  cursorDown m w = (Panic DivideByZero, w)
  /\ cursorUp m w = (Panic DivideByZero, w).
Proof.
  intros Hs. unfold cursorDown, cursorUp, go_rem. rewrite Hs. split; reflexivity.
Qed.

Lemma cursor_moves_divide_by_zero_witness :
  selectable (menu_of (NewMenu ∅ 0 world0)) = 0
  /\ cursorDown (menu_of (NewMenu ∅ 0 world0)) world0
     = (Panic DivideByZero, world0)
  /\ cursorUp (menu_of (NewMenu ∅ 0 world0)) world0
     = (Panic DivideByZero, world0).
Proof.
  split; [reflexivity|].
  apply (cursor_moves_divide_by_zero (menu_of (NewMenu ∅ 0 world0)) world0).
  reflexivity.
Defined.

(** ** The key decoder *)

Lemma set_tty_same w :
  set_tty {| mode := mode (tty w); handles := handles (tty w) |}
    (set_tty {| mode := Raw; handles := S (handles (tty w)) |} w) = w.
Proof. destruct w as [h s [md n]]. reflexivity. Qed.

Lemma getChar_restores_tty_aux k w :
  open_fails k = false -> rd_err k = false ->
  exists ascii keyCode, getChar k w = (Ok (ascii, keyCode, false), w).
Proof.
  intros Ho He. unfold getChar. rewrite Ho, He.
  destruct (if _ : bool then _ else _) as [a kc].
  exists a, kc. rewrite set_tty_same. reflexivity.
Qed.

(** X8: when the device opens and the read returns no error, [getChar]
    returns a nil error and leaves the world as it found it: the device is
    back in the mode it was in and no handle stays open. *)
Theorem getChar_restores_tty (k : TtyRead) (w : World) :
  open_fails k = false -> rd_err k = false ->
  exists ascii keyCode, getChar k w = (Ok (ascii, keyCode, false), w).
Proof. apply getChar_restores_tty_aux. Qed.

Lemma getChar_restores_tty_witness :
  (open_fails (arrow 66) = false /\ rd_err (arrow 66) = false)
  /\ exists ascii keyCode,
       getChar (arrow 66) sample_world = (Ok (ascii, keyCode, false), sample_world).
Proof.
  split; [split; reflexivity|].
  apply (getChar_restores_tty (arrow 66) sample_world); reflexivity.
Defined.

Ltac decide_bytes :=
  repeat match goal with
         | |- context [Z.eqb ?a ?b] => destruct (Z.eqb_spec a b); subst
         end.

Lemma getChar_decode_table (k : TtyRead) (w w' : World) (ascii keyCode : Z) (err : bool) :
  getChar k w = (Ok (ascii, keyCode, err), w') -> err = false ->
  (ascii = 0 \/ keyCode = 0)
  /\ (keyCode = 38 <-> take 3 (rd_data k) = [27; 91; 65])
  /\ (keyCode = 40 <-> take 3 (rd_data k) = [27; 91; 66])
  /\ (keyCode = 39 <-> take 3 (rd_data k) = [27; 91; 67])
  /\ (keyCode = 37 <-> take 3 (rd_data k) = [27; 91; 68])
  /\ (keyCode <> 0 -> keyCode = 37 \/ keyCode = 38 \/ keyCode = 39 \/ keyCode = 40)
  /\ (forall b, take 3 (rd_data k) = [b] -> ascii = b)
  /\ (length (take 3 (rd_data k)) <> 1%nat -> ascii = 0).
Proof.
  unfold getChar. intros H ->.
  destruct (open_fails k); [discriminate H|].
  destruct (rd_err k); [discriminate H|].
  destruct (rd_data k) as [|b0 [|b1 [|b2 rest]]]; cbn in H |- *.
  - injection H as <- <- _. repeat split; try congruence; try lia; auto.
  - injection H as <- <- _. repeat split; try congruence; try lia; auto.
  - injection H as <- <- _. repeat split; try congruence; try lia; auto.
  - rewrite take_0 in *. revert H. decide_bytes; cbn; intros H;
      injection H as <- <- _;
      repeat split; try congruence; try lia; auto;
      exfalso; cbn in *; lia.
Qed.

(** X9: what a read without error decodes to.  The key code is 0 or one of
    37, 38, 39, 40, and it is non-zero exactly for the three bytes ESC [
    followed by D, A, C, B; the ASCII code is the byte of a one-byte read and
    0 for every other read; the two are never both non-zero. *)
Theorem getChar_decodes (k : TtyRead) (w w' : World) (ascii keyCode : Z) (err : bool) :
  getChar k w = (Ok (ascii, keyCode, err), w') -> err = false ->
  (ascii = 0 \/ keyCode = 0)
  /\ (keyCode = 38 <-> take 3 (rd_data k) = [27; 91; 65])
  /\ (keyCode = 40 <-> take 3 (rd_data k) = [27; 91; 66])
  /\ (keyCode = 39 <-> take 3 (rd_data k) = [27; 91; 67])
  /\ (keyCode = 37 <-> take 3 (rd_data k) = [27; 91; 68])
  /\ (keyCode <> 0 -> keyCode = 37 \/ keyCode = 38 \/ keyCode = 39 \/ keyCode = 40)
  /\ (forall b, take 3 (rd_data k) = [b] -> ascii = b)
  /\ (length (take 3 (rd_data k)) <> 1%nat -> ascii = 0).
Proof. apply getChar_decode_table. Qed.

Lemma getChar_decodes_witness :
  (getChar (arrow 65) world0 = (Ok (0, 38, false), world0) /\ false = false)
  /\ (0 = 0 \/ 38 = 0)
  /\ (38 = 38 <-> take 3 (rd_data (arrow 65)) = [27; 91; 65])
  /\ (38 = 40 <-> take 3 (rd_data (arrow 65)) = [27; 91; 66])
  /\ (38 = 39 <-> take 3 (rd_data (arrow 65)) = [27; 91; 67])
  /\ (38 = 37 <-> take 3 (rd_data (arrow 65)) = [27; 91; 68])
  /\ (38 <> 0 -> 38 = 37 \/ 38 = 38 \/ 38 = 39 \/ 38 = 40)
  /\ (forall b, take 3 (rd_data (arrow 65)) = [b] -> 0 = b)
  /\ (length (take 3 (rd_data (arrow 65))) <> 1%nat -> 0 = 0).
Proof.
  split; [split; reflexivity|].
  apply (getChar_decodes (arrow 65) world0 world0 0 38 false); reflexivity.
Defined.

(** ** What the operations leave alone *)

Lemma same_rows_refl m : same_rows m m.
Proof. repeat split. Qed.

Lemma same_rows_trans m1 m2 m3 :
  same_rows m1 m2 -> same_rows m2 m3 -> same_rows m1 m3.
Proof.
  intros (A1 & B1 & C1) (A2 & B2 & C2). repeat split; congruence.
Qed.

Lemma map_insert_same {A B} (f : A -> B) (l : list A) (i : nat) (x y : A) :
  l !! i = Some x -> f y = f x -> map f (<[i := y]> l) = map f l.
Proof.
  revert i. induction l as [|a l IH]; intros [|i] Hl Hf; cbn in *;
    try discriminate.
  - injection Hl as ->. rewrite Hf. reflexivity.
  - f_equal. apply IH; assumption.
Qed.

Lemma Render_effect m w : op_effect m w (fst (Render m w)) (snd (Render m w)).
Proof.
  rewrite Render_ok. cbn [fst snd]. unfold op_effect, Printf. cbn.
  split; [reflexivity|]. split; [reflexivity|].
  split; [exists 1%nat; reflexivity|].
  intros m' H. injection H as <-. repeat split.
Qed.

Lemma op_effect_same_menu m1 m2 w r w' :
  same_rows m1 m2 -> op_effect m2 w r w' -> op_effect m1 w r w'.
Proof.
  intros (X1 & Y1 & Z1) (A & B & C & D).
  split; [exact A|]. split; [exact B|]. split; [exact C|].
  intros m' H. destruct (D m' H) as (X & Y & Z').
  repeat split; congruence.
Qed.

Lemma op_effect_panic m w p : op_effect m w (Panic p) w.
Proof.
  split; [reflexivity|]. split; [reflexivity|].
  split; [exists 0%nat; cbn; symmetry; apply app_nil_r|].
  intros m' H. discriminate H.
Qed.

Lemma toggleCursor_effect m w :
  op_effect m w (fst (toggleCursor m w)) (snd (toggleCursor m w)).
Proof.
  unfold toggleCursor.
  destruct (index (items m) (cursor m)) as [it|] eqn:E.
  - eapply op_effect_same_menu; [|apply Render_effect].
    repeat split. cbn [items set_items].
    apply map_insert_same with (x := it); [|reflexivity].
    unfold index in E. destruct (cursor m <? 0); [discriminate|exact E].
  - apply op_effect_panic.
Qed.

Lemma cursorDown_effect m w :
  op_effect m w (fst (cursorDown m w)) (snd (cursorDown m w)).
Proof.
  unfold cursorDown. destruct (go_rem _ _).
  - eapply op_effect_same_menu; [|apply Render_effect]. repeat split.
  - apply op_effect_panic.
Qed.

Lemma cursorUp_effect m w :
  op_effect m w (fst (cursorUp m w)) (snd (cursorUp m w)).
Proof.
  unfold cursorUp. destruct (go_rem _ _).
  - eapply op_effect_same_menu; [|apply Render_effect]. repeat split.
  - apply op_effect_panic.
Qed.

(** ** What an interaction leaves alone *)

Lemma loop_effect_after_op k keys m w (r1 : result Menu) w1 m1 r w' :
  op_effect m w r1 w1 -> r1 = Ok m1 ->
  loop_effect keys m1 w1 r w' ->
  loop_effect (k :: keys) m w r w'.
Proof.
  intros (H1 & T1 & [n1 S1] & R1) -> (H2 & [n2 S2] & T2 & R2).
  split; [congruence|]. split.
  - exists (n1 + n2)%nat. rewrite S2, S1, replicate_add, <- !app_assoc.
    reflexivity.
  - split.
    + intros F. inversion F; subst. rewrite T2 by assumption. exact T1.
    + intros x m' E. eapply same_rows_trans; [apply R1; reflexivity|].
      eapply R2, E.
Qed.

Lemma loop_effect_op_panic k keys m w (r1 : result Menu) w1 p :
  op_effect m w r1 w1 -> r1 = Panic p ->
  loop_effect (k :: keys) m w (Panic p) w1.
Proof.
  intros (H1 & T1 & [n1 S1] & R1) ->.
  split; [exact H1|]. split.
  - exists n1. cbn. rewrite app_nil_r. exact S1.
  - split; [intros _; exact T1|]. intros x m' E. discriminate E.
Qed.

Lemma loop_effect_here keys m w r tl :
  loop_tail r = tl ->
  (forall x m', r = Ok (x, m') -> same_rows m m') ->
  loop_effect keys m w r
    {| heap := heap w; stdout := stdout w ++ tl; tty := tty w |}.
Proof.
  intros Ht Hr. split; [reflexivity|]. split.
  - exists 0%nat. rewrite Ht. reflexivity.
  - split; [reflexivity|exact Hr].
Qed.

Lemma loop_effect_still keys m w r :
  loop_tail r = [] ->
  (forall x m', r = Ok (x, m') -> same_rows m m') ->
  loop_effect keys m w r w.
Proof.
  intros Ht Hr. split; [reflexivity|]. split.
  - exists 0%nat. rewrite Ht. cbn. symmetry. apply app_nil_r.
  - split; [reflexivity|exact Hr].
Qed.

(** One turn of the loop of [Run], case by case. *)
Lemma Run_loop_cons k keys m w :
  Run_loop (k :: keys) m w
  = match getChar k w with
    | (Panic p, w1) => (Panic p, w1)
    | (Ok (a, kc, err), w1) =>
        if (a =? 3) || (a =? 27) || err then
          (Ok (Returned [] true, set_out (Fprintln "Aborted." (out m)) m), w1)
        else if a =? 32 then
          match toggleCursor m w1 with
          | (Ok m1, w2) => after_keyCode kc keys m1 w2
          | (Panic p, w2) => (Panic p, w2)
          end
        else if a =? 13 then
          match collect (heap w1) (items m) [] with
          | Ok sel => (Ok (Returned sel false, m), snd (Printf NL w1))
          | Panic p => (Panic p, w1)
          end
        else after_keyCode kc keys m w1
    end.
Proof.
  cbn [Run_loop]. unfold after_keyCode, bind, collect_selected, ret.
  destruct (getChar k w) as [[[[a kc] err]|p] w1]; [|reflexivity].
  destruct ((a =? 3) || (a =? 27) || err); [reflexivity|].
  destruct (a =? 32).
  - destruct (toggleCursor m w1) as [[m1|p] w2]; reflexivity.
  - destruct (a =? 13); [|reflexivity].
    destruct (collect (heap w1) (items m) []); reflexivity.
Qed.

Lemma loop_effect_arrows k keys kc m w :
  (forall m1 w1,
      loop_effect keys m1 w1 (fst (Run_loop keys m1 w1)) (snd (Run_loop keys m1 w1))) ->
  loop_effect (k :: keys) m w
    (fst (after_keyCode kc keys m w)) (snd (after_keyCode kc keys m w)).
Proof.
  intros IH. unfold after_keyCode, bind.
  assert (E : op_effect m w
                (fst ((if kc =? 40 then cursorDown m
                       else if kc =? 38 then cursorUp m else ret m) w))
                (snd ((if kc =? 40 then cursorDown m
                       else if kc =? 38 then cursorUp m else ret m) w))).
  { destruct (kc =? 40); [apply cursorDown_effect|].
    destruct (kc =? 38); [apply cursorUp_effect|].
    cbn. split; [reflexivity|]. split; [reflexivity|].
    split; [exists 0%nat; cbn; symmetry; apply app_nil_r|].
    intros m' H. injection H as <-. apply same_rows_refl. }
  destruct ((if kc =? 40 then cursorDown m
             else if kc =? 38 then cursorUp m else ret m) w) as [[m2|p] w2].
  - cbn [fst snd] in E.
    eapply loop_effect_after_op; [exact E|reflexivity|apply IH].
  - cbn [fst snd] in *. eapply loop_effect_op_panic; [exact E|reflexivity].
Qed.

Lemma getChar_cases k w :
  (open_fails k = true /\ getChar k w = (Panic NilDereference, w))
  \/ (rd_err k = true
      /\ getChar k w
         = (Ok (0, 0, true),
            set_tty {| mode := Raw; handles := S (handles (tty w)) |} w))
  \/ (open_fails k = false /\ rd_err k = false
      /\ exists a kc, getChar k w = (Ok (a, kc, false), w)).
Proof.
  destruct (open_fails k) eqn:Ho.
  - left. split; [reflexivity|]. unfold getChar. rewrite Ho. reflexivity.
  - destruct (rd_err k) eqn:He.
    + right. left. split; [reflexivity|]. unfold getChar. rewrite Ho, He.
      reflexivity.
    + right. right. split; [reflexivity|]. split; [reflexivity|].
      apply getChar_restores_tty_aux; assumption.
Qed.

Lemma Run_loop_effect keys : forall m w,
  loop_effect keys m w (fst (Run_loop keys m w)) (snd (Run_loop keys m w)).
Proof.
  induction keys as [|k keys IH]; intros m w.
  - cbn. apply loop_effect_still; [reflexivity|].
    intros x m' H. injection H as _ <-. apply same_rows_refl.
  - rewrite Run_loop_cons.
    destruct (getChar_cases k w)
      as [[_ ->] | [[He ->] | (_ & He & a & kc & ->)]].
    { cbn [fst snd]. apply loop_effect_still; [reflexivity|].
      intros x m' H. discriminate H. }
    { rewrite orb_true_r. cbn. split; [reflexivity|]. split.
      - exists 0%nat. cbn. symmetry. apply app_nil_r.
      - split.
        + intros F. inversion F; subst. congruence.
        + intros x m' H. injection H as _ <-. repeat split. }
    rewrite orb_false_r.
    destruct ((a =? 3) || (a =? 27)).
    { cbn [fst snd]. apply loop_effect_still; [reflexivity|].
      intros x m' H. injection H as _ <-. repeat split. }
    destruct (a =? 32).
    + pose proof (toggleCursor_effect m w) as E.
      destruct (toggleCursor m w) as [[m1|p] w1]; cbn [fst snd] in E.
      * pose proof (loop_effect_arrows k keys kc m1 w1 IH) as L.
        destruct E as (H1 & T1 & [n1 S1] & R1).
        destruct L as (H2 & [n2 S2] & T2 & R2).
        split; [congruence|]. split.
        { exists (n1 + n2)%nat.
          rewrite S2, S1, replicate_add, <- !app_assoc. reflexivity. }
        split.
        { intros F. rewrite T2 by assumption. exact T1. }
        intros x m' X. eapply same_rows_trans; [apply R1; reflexivity|].
        eapply R2, X.
      * eapply loop_effect_op_panic; [exact E|reflexivity].
    + destruct (a =? 13).
      * destruct (collect (heap w) (items m) []) as [sel|p].
        { cbn. apply loop_effect_here; [reflexivity|].
          intros x m' H. injection H as _ <-. apply same_rows_refl. }
        { cbn [fst snd]. apply loop_effect_still; [reflexivity|].
          intros x m' H. discriminate H. }
      * apply (loop_effect_arrows k keys kc m w IH).
Qed.

Lemma Run_unfold keys m w :
  Run keys m w
  = match Run_loop keys
            (set_out (Flush (writes (painted (heap w) m) (Clear (out m)))) m)
            (snd (Printf hideCursor w)) with
    | (Ok (Waiting, m1), w1) => (Ok (Waiting, m1), w1)
    | (r, w1) => (r, snd (Printf showCursor w1))
    end.
Proof. unfold Run, bind. rewrite Render_ok. reflexivity. Qed.

(** What [Run] as a whole does to the world and the menu. *)
Lemma Run_effect keys m w :
  heap (snd (Run keys m w)) = heap w
  /\ (exists n, stdout (snd (Run keys m w))
               = (stdout w ++ replicate (S n) hideCursor
                    ++ exit_tail (fst (Run keys m w)))%list)
  /\ (Forall (fun k => rd_err k = false) keys -> tty (snd (Run keys m w)) = tty w)
  /\ forall x m', fst (Run keys m w) = Ok (x, m') -> same_rows m m'.
Proof.
  rewrite Run_unfold.
  pose proof (Run_loop_effect keys
                (set_out (Flush (writes (painted (heap w) m) (Clear (out m)))) m)
                (snd (Printf hideCursor w))) as (H & [n S'] & T & R).
  destruct (Run_loop keys _ _) as [r w1]. cbn [fst snd] in *.
  assert (S1 : stdout w1
               = (stdout w ++ replicate (S n) hideCursor ++ loop_tail r)%list).
  { rewrite S'. cbn. rewrite <- !app_assoc. reflexivity. }
  destruct r as [[[sel ab|] m1]|p]; cbn [fst snd].
  - split; [exact H|]. split.
    { exists n. cbn [Printf snd stdout exit_tail]. rewrite S1, <- !app_assoc.
      reflexivity. }
    split; [exact T|]. intros x m' E. exact (R x m' E).
  - split; [exact H|]. split.
    { exists n. cbn [exit_tail]. rewrite S1. cbn. reflexivity. }
    split; [exact T|]. intros x m' E. exact (R x m' E).
  - split; [exact H|]. split.
    { exists n. cbn [Printf snd stdout exit_tail]. rewrite S1, <- !app_assoc.
      reflexivity. }
    split; [exact T|]. intros x m' E. discriminate E.
Qed.

(** X10: whatever keys are read, [Run] never adds, removes or reorders
    rows and never changes a row's identifier, status, error or update
    pointer: the menu it is left with has the rows it started with up to
    their selected flags, the same selectable count and result data, and
    the descriptors in memory are untouched. *)
Theorem Run_keeps_rows (keys : list TtyRead) (m m' : Menu) (w w' : World)
    (x : RunExit) :
  Run keys m w = (Ok (x, m'), w') ->
  map unselected (items m') = map unselected (items m)
  /\ length (items m') = length (items m)
  /\ map update (items m') = map update (items m)
  /\ selectable m' = selectable m
  /\ results m' = results m
  /\ heap w' = heap w.
Proof.
  intros E. pose proof (Run_effect keys m w) as (H & _ & _ & R).
  rewrite E in *. cbn [fst snd] in *.
  destruct (R x m' eq_refl) as (A & B & C).
  split; [exact A|].
  split; [rewrite <- (length_map unselected), A; apply length_map|].
  split.
  { transitivity (map update (map unselected (items m'))).
    - rewrite List.map_map. reflexivity.
    - rewrite A, List.map_map. reflexivity. }
  split; [exact B|]. split; [exact C|exact H].
Qed.

Lemma Run_keeps_rows_witness :
  let r := Run [key 32; arrow 66; key 32] sample_menu sample_world in
  r = (Ok (Waiting, menu_after r), snd r)
  /\ map selected (items (menu_after r)) = [true; true]
  /\ map unselected (items (menu_after r)) = map unselected (items sample_menu)
  /\ length (items (menu_after r)) = length (items sample_menu)
  /\ map update (items (menu_after r)) = map update (items sample_menu)
  /\ selectable (menu_after r) = selectable sample_menu
  /\ results (menu_after r) = results sample_menu
  /\ heap (snd r) = heap sample_world.
Proof.
  intros r.
  assert (H : r = (Ok (Waiting, menu_after r), snd r))
    by (vm_compute; reflexivity).
  split; [exact H|]. split; [reflexivity|].
  exact (Run_keeps_rows [key 32; arrow 66; key 32] sample_menu (menu_after r)
           sample_world (snd r) Waiting H).
Defined.

(** X11: if none of the reads returns an error, then once [Run] has
    returned or panicked the terminal device is in the mode it was found in,
    with no handle left open. *)
Theorem Run_restores_tty (keys : list TtyRead) (m : Menu) (w : World) :
  Forall (fun k => rd_err k = false) keys ->
  exited (fst (Run keys m w)) ->
  tty (snd (Run keys m w)) = tty w.
Proof. intros F _. apply (Run_effect keys m w), F. Qed.

Lemma Run_restores_tty_witness :
  (Forall (fun k => rd_err k = false) [key 32; arrow 66; key 13]
   /\ exited (fst (Run [key 32; arrow 66; key 13] sample_menu sample_world))
   /\ fst (Run [key 32; arrow 66; key 13] sample_menu sample_world)
      = Ok (Returned [db_update] false,
            menu_after (Run [key 32; arrow 66; key 13] sample_menu sample_world)))
  /\ tty (snd (Run [key 32; arrow 66; key 13] sample_menu sample_world))
     = tty sample_world.
Proof.
  assert (F : Forall (fun k => rd_err k = false) [key 32; arrow 66; key 13])
    by (repeat constructor).
  assert (E : exited (fst (Run [key 32; arrow 66; key 13]
                             sample_menu sample_world)))
    by (vm_compute; exact I).
  split; [split; [exact F|split; [exact E|vm_compute; reflexivity]]|].
  exact (Run_restores_tty [key 32; arrow 66; key 13]
           sample_menu sample_world F E).
Defined.










(** ** Keys the loop does not react to *)

(** X13: a read that is none of the keys [Run] reacts to is skipped: the
    loop goes on with the next read, with the menu and the world as they
    were; nothing is painted. *)
Theorem Run_loop_skips_ignored_read (k : TtyRead) (rest : list TtyRead)
    (m : Menu) (w : World) :
  ignored_read k ->
  Run_loop (k :: rest) m w = Run_loop rest m w.
Proof.
  intros (Ho & He & Hd).
  destruct (getChar_restores_tty_aux k w Ho He) as (a & kc & E).
  destruct (getChar_decode_table k w w a kc false E eq_refl)
    as (_ & H38 & H40 & _ & _ & _ & Hone & Hnot).
  assert (Ha : (a =? 3) = false /\ (a =? 27) = false
               /\ (a =? 32) = false /\ (a =? 13) = false).
  { destruct (take 3 (rd_data k)) as [|b0 [|b1 [|b2 [|b3 l]]]] eqn:Et.
    - rewrite Hnot by (cbn; lia). repeat split.
    - rewrite (Hone b0 eq_refl). destruct Hd as (? & ? & ? & ?).
      repeat split; apply Z.eqb_neq; assumption.
    - rewrite Hnot by (cbn; lia). repeat split.
    - rewrite Hnot by (cbn; lia). repeat split.
    - rewrite Hnot by (cbn; lia). repeat split. }
  assert (Hk : (kc =? 40) = false /\ (kc =? 38) = false).
  { split; apply Z.eqb_neq; intros ->.
    - apply proj1 in H40. specialize (H40 eq_refl). rewrite H40 in Hd.
      apply Hd. auto.
    - apply proj1 in H38. specialize (H38 eq_refl). rewrite H38 in Hd.
      apply Hd. auto. }
  destruct Ha as (A1 & A2 & A3 & A4). destruct Hk as (K1 & K2).
  rewrite Run_loop_cons, E, A1, A2, A3, A4. cbn [orb].
  unfold after_keyCode, bind. rewrite K1, K2. reflexivity.
Qed.

Lemma Run_loop_skips_ignored_read_witness :
  ignored_read (arrow 67)
  /\ Run_loop (arrow 67 :: [key 13]) sample_menu sample_world
     = Run_loop [key 13] sample_menu sample_world.
Proof.
  assert (H : ignored_read (arrow 67)).
  { split; [reflexivity|]. split; [reflexivity|].
    cbn. intros (_ & _ & [H|H]); discriminate H. }
  split; [exact H|].
  exact (Run_loop_skips_ignored_read (arrow 67) [key 13]
           sample_menu sample_world H).
Defined.

(** ** Confirming with Enter *)

Lemma collect_ok h its : forall acc,
  selection_ok its ->
  collect h its acc = Ok (acc ++ selected_updates h its)%list.
Proof.
  induction its as [|i its IH]; intros acc Hs; cbn.
  - rewrite app_nil_r. reflexivity.
  - inversion Hs as [|? ? Hi Hrest]; subst.
    destruct (selected i) eqn:Es.
    + specialize (Hi eq_refl). unfold MenuItem_selectable in Hi.
      destruct (update i) as [p|]; [|discriminate Hi].
      rewrite IH by assumption. cbn. rewrite <- app_assoc. reflexivity.
    + apply IH. assumption.
Qed.

Lemma collect_broken h its : forall acc,
  selection_broken its -> collect h its acc = Panic NilDereference.
Proof.
  induction its as [|i its IH]; intros acc Hs; inversion Hs as [? ? Hi|? ? Hi]; subst.
  - destruct Hi as [Es Hn]. cbn. rewrite Es.
    unfold MenuItem_selectable in Hn. destruct (update i); [discriminate Hn|].
    reflexivity.
  - cbn. destruct (selected i); [|apply IH, Hi].
    destruct (update i); [apply IH, Hi|reflexivity].
Qed.

Lemma selected_updates_length h its :
  selection_ok its ->
  length (selected_updates h its) = length (List.filter selected its).
Proof.
  intros Hs. unfold selected_updates in *.
  induction Hs as [|i its Hi _ IH]; [reflexivity|].
  cbn. destruct (selected i) eqn:Es; [|exact IH].
  specialize (Hi eq_refl). unfold MenuItem_selectable in Hi.
  destruct (update i); [|discriminate Hi]. cbn. f_equal. exact IH.
Qed.

Lemma getChar_key b w : getChar (key b) w = (Ok (b, 0, false), w).
Proof.
  destruct (getChar_restores_tty_aux (key b) w eq_refl eq_refl)
    as (a & kc & E).
  destruct (getChar_decode_table (key b) w w a kc false E eq_refl)
    as (_ & H38 & H40 & H39 & H37 & Hk & Hone & _).
  rewrite E. rewrite (Hone b eq_refl).
  destruct (Z.eq_dec kc 0) as [->|Hne]; [reflexivity|].
  destruct (Hk Hne) as [ -> | [ -> | [ -> | -> ] ] ].
  - apply proj1 in H37. discriminate (H37 eq_refl).
  - apply proj1 in H38. discriminate (H38 eq_refl).
  - apply proj1 in H39. discriminate (H39 eq_refl).
  - apply proj1 in H40. discriminate (H40 eq_refl).
Qed.

Lemma Run_loop_Enter_ok (rest : list TtyRead) (m : Menu)
    (w : World) :
  selection_ok (items m) ->
  Run_loop (key 13 :: rest) m w
  = (Ok (Returned (selected_updates (heap w) (items m)) false, m),
     snd (Printf NL w))
  /\ length (selected_updates (heap w) (items m))
     = length (List.filter selected (items m)).
Proof.
  intros Hs. split; [|apply selected_updates_length, Hs].
  rewrite Run_loop_cons, getChar_key. cbn [Z.eqb Pos.eqb orb].
  rewrite (collect_ok _ _ [] Hs). reflexivity.
Qed.

(** X14: when every selected row carries an update descriptor, Enter makes
    the loop of [Run] return, not aborted, what the pointers of the
    selected rows hold, one descriptor per selected row and in row order;
    the menu is unchanged, a line break is printed and later reads are not
    consumed. *)
Theorem Run_loop_Enter_returns_selected (rest : list TtyRead) (m : Menu)
    (w : World) :
  selection_ok (items m) ->
  Run_loop (key 13 :: rest) m w
  = (Ok (Returned (selected_updates (heap w) (items m)) false, m),
     snd (Printf NL w))
  /\ length (selected_updates (heap w) (items m))
     = length (List.filter selected (items m)).
Proof. apply Run_loop_Enter_ok. Qed.

Lemma Run_loop_Enter_returns_selected_witness :
  let m := menu_after (Run [key 32] sample_menu sample_world) in
  (selection_ok (items m)
   /\ map selected (items m) = [true; false]
   /\ selected_updates (heap sample_world) (items m) = [db_update])
  /\ Run_loop (key 13 :: [key 32]) m sample_world
     = (Ok (Returned (selected_updates (heap sample_world) (items m)) false, m),
        snd (Printf NL sample_world))
  /\ length (selected_updates (heap sample_world) (items m))
     = length (List.filter selected (items m)).
Proof.
  intros m.
  assert (H : selection_ok (items m)).
  { repeat constructor; intros E; try reflexivity; discriminate E. }
  split; [split; [exact H|split; reflexivity]|].
  exact (Run_loop_Enter_returns_selected [key 32] m sample_world H).
Defined.

(** X15: when some selected row carries no update descriptor, Enter makes
    the loop of [Run] panic on the nil pointer, and nothing is returned. *)
Theorem Run_loop_Enter_panics_on_selected_error_row (rest : list TtyRead)
    (m : Menu) (w : World) :
  selection_broken (items m) ->
  Run_loop (key 13 :: rest) m w = (Panic NilDereference, w).
Proof.
  intros Hs. rewrite Run_loop_cons, getChar_key. cbn [Z.eqb Pos.eqb orb].
  rewrite (collect_broken _ _ [] Hs). reflexivity.
Qed.

Lemma Run_loop_Enter_panics_on_selected_error_row_witness :
  let m := menu_of ((let* m0 := NewMenu error_then_update 0 in toggleCursor m0)
                      world0) in
  selection_broken (items m)
  /\ Run_loop (key 13 :: []) m world0 = (Panic NilDereference, world0).
Proof.
  intros m.
  assert (H : selection_broken (items m)).
  { apply Exists_cons_hd. split; reflexivity. }
  split; [exact H|].
  exact (Run_loop_Enter_panics_on_selected_error_row [] m world0 H).
Defined.

(** ** A new menu *)

Lemma AddItem_none_selected mi m :
  selected mi = false -> none_selected (items m) ->
  none_selected (items (AddItem mi m)).
Proof.
  intros Hmi H. unfold none_selected. cbn [AddItem items].
  apply Forall_app. split; [exact H|]. constructor; [exact Hmi|constructor].
Qed.

Lemma range_PerContainer_none_selected i st p upds m h :
  none_selected (items m) ->
  none_selected (items (fst (range_PerContainer i st p upds m h))).
Proof.
  revert m h. induction upds as [|u rest IH]; intros m h H; [exact H|].
  cbn [range_PerContainer]. apply IH, AddItem_none_selected; [reflexivity|exact H].
Qed.

Lemma fromResults_loop_none_selected results v ids m h :
  none_selected (items m) ->
  none_selected (items (fst (fromResults_loop results v ids m h))).
Proof.
  revert m h. induction ids as [|s ids IH]; intros m h H; [exact H|].
  cbn [fromResults_loop].
  assert (H1 : none_selected (items (fst (fromResults_body results v s m h)))).
  { unfold fromResults_body. cbv zeta. destruct (skips _ _); [exact H|].
    apply range_PerContainer_none_selected.
    destruct (negb _); [apply AddItem_none_selected; [reflexivity|exact H]|exact H]. }
  destruct (fromResults_body results v s m h) as [m1 h1]. apply IH, H1.
Qed.

Lemma NewMenu_none_selected results v w :
  none_selected (items (menu_of (NewMenu results v w))).
Proof.
  unfold NewMenu, fromResults, menu_of.
  pose proof (fromResults_loop_none_selected results v (ServiceIDs results)
                {| out := NewClearableWriter []; results := results;
                   items := []; cursor := 0; selectable := 0 |} (heap w)
                (List.Forall_nil _)) as H.
  destruct (fromResults_loop _ _ _ _ _). exact H.
Qed.

Lemma none_selected_ok its : none_selected its -> selection_ok its.
Proof.
  intros H. eapply Forall_impl; [exact H|]. cbn. intros i -> E. discriminate E.
Qed.

Lemma none_selected_updates h its :
  none_selected its -> selected_updates h its = [].
Proof.
  intros H. unfold selected_updates.
  induction H as [|i its Hi _ IH]; [reflexivity|].
  cbn. rewrite Hi. exact IH.
Qed.

(** X16: in the menu [NewMenu] builds, whatever the results and the
    verbosity, no row is selected; so [Run] on it with Enter as the first
    key returns the empty selection, not aborted, and never panics. *)
Theorem NewMenu_then_Enter (results : Result) (v : Z) (w : World)
    (rest : list TtyRead) :
  none_selected (items (menu_of (NewMenu results v w)))
  /\ exists m' w',
       Run (key 13 :: rest) (menu_of (NewMenu results v w))
         (snd (NewMenu results v w))
       = (Ok (Returned [] false, m'), w')
       /\ items m' = items (menu_of (NewMenu results v w)).
Proof.
  pose proof (NewMenu_none_selected results v w) as H.
  split; [exact H|].
  rewrite Run_unfold.
  match goal with
  | |- context [Run_loop _ ?m0 ?w0] =>
      destruct (Run_loop_Enter_ok rest m0 w0) as [E _];
        [apply none_selected_ok; exact H|];
        rewrite E
  end.
  cbn [items set_out]. rewrite (none_selected_updates _ _ H).
  eexists _, _. split; reflexivity.
Qed.

(** ** Leaving the loop *)

Lemma Run_loop_exited_app pre ks : forall m w,
  exited (fst (Run_loop pre m w)) ->
  Run_loop (pre ++ ks) m w = Run_loop pre m w.
Proof.
  induction pre as [|k pre IH]; intros m w H; [destruct H|].
  cbn [app]. rewrite !Run_loop_cons in *.
  assert (A : forall kc m1 w1,
             exited (fst (after_keyCode kc pre m1 w1)) ->
             after_keyCode kc (pre ++ ks) m1 w1 = after_keyCode kc pre m1 w1).
  { intros kc m1 w1. unfold after_keyCode, bind.
    destruct ((if kc =? 40 then cursorDown m1
               else if kc =? 38 then cursorUp m1 else ret m1) w1)
      as [[m2|p] w2]; [apply IH|reflexivity]. }
  destruct (getChar k w) as [[[[a kc] err]|p] w1]; [|reflexivity].
  destruct ((a =? 3) || (a =? 27) || err); [reflexivity|].
  destruct (a =? 32).
  - destruct (toggleCursor m w1) as [[m1|p] w2]; [apply A, H|reflexivity].
  - destruct (a =? 13); [reflexivity|apply A, H].
Qed.

(** X17: once [Run] has returned or panicked on the reads it was given,
    reads that would follow change nothing: they are never consumed, so the
    result and the world are the same. *)
Theorem Run_stops_at_exit (pre ks : list TtyRead) (m : Menu) (w : World) :
  exited (fst (Run pre m w)) ->
  Run (pre ++ ks) m w = Run pre m w.
Proof.
  rewrite !Run_unfold. intros H.
  rewrite Run_loop_exited_app; [reflexivity|].
  destruct (Run_loop pre _ _) as [[[[sel ab|] m1]|p] w1]; cbn in *;
    [exact I|destruct H|exact I].
Qed.

Lemma Run_stops_at_exit_witness :
  exited (fst (Run [key 32; key 13] sample_menu sample_world))
  /\ Run ([key 32; key 13] ++ [arrow 66; failed_read]) sample_menu sample_world
     = Run [key 32; key 13] sample_menu sample_world.
Proof.
  assert (H : exited (fst (Run [key 32; key 13] sample_menu sample_world)))
    by (vm_compute; exact I).
  split; [exact H|].
  exact (Run_stops_at_exit [key 32; key 13] [arrow 66; failed_read]
           sample_menu sample_world H).
Defined.

(** ** Counting lines *)

Lemma count_lines_app p q : forall n,
  count_lines (p ++ q) n = count_lines q (count_lines p n).
Proof.
  induction p as [|b p IH]; intros n; [reflexivity|].
  cbn [String.append count_lines]. apply IH.
Qed.

(** X18: the line count of the redraw buffer does not depend on how the
    text is cut into writes: one [Write] of [p ++ q] counts what a [Write]
    of [p] followed by a [Write] of [q] counts. *)
Theorem Write_count_independent_of_chunks (p q : string) (c : ClearableWriter) :
  lines (Write (p ++ q) c) = lines (Write q (Write p c)).
Proof. cbn [Write lines]. apply count_lines_app. Qed.

Lemma line_breaks_app p q :
  line_breaks (p ++ q) = line_breaks p + line_breaks q.
Proof.
  induction p as [|b p IH]; [reflexivity|].
  change (String b p ++ q) with (String b (p ++ q)).
  cbn [line_breaks]. rewrite IH. lia.
Qed.

Lemma MenuItem_checkbox_one_line i : line_breaks (MenuItem_checkbox i) = 0.
Proof.
  unfold MenuItem_checkbox.
  destruct (negb _); [reflexivity|]. destruct (selected i); reflexivity.
Qed.

Lemma row_line_breaks h i cur :
  line_breaks (row_line h i cur)
  = 1 + line_breaks (id i) + line_breaks (status i)
      + line_breaks (MenuItem_updates h i).
Proof.
  unfold row_line. rewrite !line_breaks_app, MenuItem_checkbox_one_line.
  destruct cur; cbn; lia.
Qed.

Lemma row_lines_breaks h its : forall i cur,
  Forall (one_line_row h) its ->
  total_line_breaks (row_lines h its i cur) = Z.of_nat (length its).
Proof.
  induction its as [|it its IH]; intros i cur H; [reflexivity|].
  inversion H as [|? ? (A & B & C) Hrest]; subst.
  cbn [row_lines total_line_breaks foldr length].
  rewrite row_line_breaks, A, B, C.
  unfold total_line_breaks in IH. rewrite IH by assumption. lia.
Qed.

(** X19: when no text of a row (identifier, status, update or error text)
    holds a line break, [Render] leaves the line count of the redraw buffer
    at one (the header) plus the number of rows, whatever the rows, the
    cursor and the count before. *)
Theorem Render_counts_header_and_rows (m : Menu) (w : World) :
  Forall (one_line_row (heap w)) (items m) ->
  Z.of_nat (length (items m)) < int_max ->
  lines (out (menu_of (Render m w))) = 1 + Z.of_nat (length (items m)).
Proof.
  intros Hrows Hfit. rewrite Render_ok. unfold menu_of. cbn [fst out set_out Flush lines].
  assert (T : total_line_breaks (painted (heap w) m)
              = 1 + Z.of_nat (length (items m))).
  { unfold painted. cbn [total_line_breaks foldr].
    pose proof (row_lines_breaks (heap w) (items m) 0 (cursor m) Hrows) as R.
    unfold total_line_breaks in R. rewrite R.
    rewrite line_breaks_app. reflexivity. }
  rewrite writes_after_Clear; [exact T|]. rewrite T. lia.
Qed.

Lemma Render_counts_header_and_rows_witness :
  (Forall (one_line_row (heap sample_world)) (items sample_menu)
   /\ Z.of_nat (length (items sample_menu)) < int_max)
  /\ lines (out (menu_of (Render sample_menu sample_world)))
     = 1 + Z.of_nat (length (items sample_menu)).
Proof.
  assert (H : Forall (one_line_row (heap sample_world)) (items sample_menu))
    by (repeat constructor).
  assert (F : Z.of_nat (length (items sample_menu)) < int_max)
    by reflexivity.
  split; [split; [exact H|exact F]|].
  exact (Render_counts_header_and_rows sample_menu sample_world H F).
Defined.

(** ** Verbosity out of its range *)

Lemma skips_above st v : 2 <= v -> skips st v = false.
Proof.
  intros Hv. unfold skips.
  destruct (String.eqb st ReleaseStatusIgnored); [lia|].
  destruct (String.eqb st ReleaseStatusSkipped); lia.
Qed.

Lemma skips_below st v : v <= 0 -> skips st v = skips st 0.
Proof.
  intros Hv. unfold skips.
  destruct (String.eqb st ReleaseStatusIgnored); [lia|].
  destruct (String.eqb st ReleaseStatusSkipped); lia.
Qed.

(** X20: a verbosity of 2 or more filters nothing: the rows of the new menu
    are the rows of every resource, in the order of the identifiers; and a
    verbosity of 0 or less filters as 0 does. *)
Theorem NewMenu_verbosity_saturates (results : Result) (w : World) (hi lo : Z) :
  2 <= hi -> lo <= 0 ->
  rows_of (NewMenu results hi w)
  = flat_map (fun serviceID => resource_rows serviceID (result_at results serviceID))
      (ServiceIDs results)
  /\ rows_of (NewMenu results lo w) = rows_of (NewMenu results 0 w).
Proof.
  intros Hhi Hlo. rewrite !NewMenu_rows. split.
  - apply List.flat_map_ext. intros s. unfold contribution.
    rewrite skips_above by assumption. reflexivity.
  - apply List.flat_map_ext. intros s. unfold contribution.
    rewrite skips_below by assumption. reflexivity.
Qed.

Lemma NewMenu_verbosity_saturates_witness :
  (2 <= 7 /\ -3 <= 0)
  /\ rows_of (NewMenu ignored_and_skipped 7 world0)
     = flat_map (fun serviceID =>
                   resource_rows serviceID
                     (result_at ignored_and_skipped serviceID))
         (ServiceIDs ignored_and_skipped)
  /\ rows_of (NewMenu ignored_and_skipped (-3) world0)
     = rows_of (NewMenu ignored_and_skipped 0 world0).
Proof.
  split; [split; discriminate|].
  apply (NewMenu_verbosity_saturates ignored_and_skipped world0 7 (-3));
    discriminate.
Defined.

(** ** What the paint shows *)

Lemma flip_selected_selectable it :
  MenuItem_selectable (flip_selected it) = MenuItem_selectable it.
Proof. reflexivity. Qed.

Lemma row_line_flip_error_row h it cur :
  MenuItem_selectable it = false ->
  row_line h (flip_selected it) cur = row_line h it cur.
Proof.
  intros Hn. unfold row_line, MenuItem_checkbox, MenuItem_updates.
  rewrite flip_selected_selectable, Hn. reflexivity.
Qed.

Lemma row_lines_flip_error_row h its : forall n it i cur,
  its !! n = Some it -> MenuItem_selectable it = false ->
  row_lines h (<[n := flip_selected it]> its) i cur = row_lines h its i cur.
Proof.
  induction its as [|a its IH]; intros [|n] it i cur Hl Hn; cbn in Hl;
    try discriminate.
  - injection Hl as ->. cbn [row_lines insert list_insert].
    change (<[0%nat := flip_selected it]> (it :: its))
      with (flip_selected it :: its).
    cbn [row_lines]. rewrite flip_selected_selectable.
    rewrite row_line_flip_error_row by assumption. reflexivity.
  - change (<[S n := flip_selected it]> (a :: its))
      with (a :: <[n := flip_selected it]> its).
    cbn [row_lines]. rewrite (IH n it) by assumption. reflexivity.
Qed.

(** X21: when the row at the cursor's index carries no update descriptor,
    [toggleCursor] flips its selected flag but the repaint shows nothing of
    it: the lines written are those [Render] writes for the menu before the
    toggle. *)
Theorem toggleCursor_on_error_row_paints_the_same (m : Menu) (w : World)
    (it : MenuItem) :
  index (items m) (cursor m) = Some it ->
  MenuItem_selectable it = false ->
  exists m1 w1 m2 w2,
    toggleCursor m w = (Ok m1, w1) /\ Render m w = (Ok m2, w2)
    /\ items m1 !! Z.to_nat (cursor m) = Some (flip_selected it)
    /\ wf (out m1) = wf (out m2) /\ lines (out m1) = lines (out m2).
Proof.
  intros Hi Hn.
  assert (Hl : items m !! Z.to_nat (cursor m) = Some it).
  { unfold index in Hi. destruct (cursor m <? 0); [discriminate|exact Hi]. }
  rewrite (toggleCursor_ok m w it Hi), !Render_ok.
  eexists _, _, _, _. split; [reflexivity|]. split; [reflexivity|].
  cbn [items set_out set_items out].
  split.
  { apply list_lookup_insert_eq. apply lookup_lt_Some in Hl. exact Hl. }
  assert (P : painted (heap w)
                (set_items (<[Z.to_nat (cursor m) := flip_selected it]> (items m)) m)
              = painted (heap w) m).
  { unfold painted. cbn [items set_items cursor]. f_equal.
    apply row_lines_flip_error_row; assumption. }
  rewrite P. split; reflexivity.
Qed.

Lemma toggleCursor_on_error_row_paints_the_same_witness :
  let m := menu_of (NewMenu error_then_update 0 world0) in
  let w := snd (NewMenu error_then_update 0 world0) in
  let it := {| id := "default:deployment/a"; status := "failed";
               error := "boom"; update := None; selected := false |} in
  (index (items m) (cursor m) = Some it /\ MenuItem_selectable it = false)
  /\ exists m1 w1 m2 w2,
    toggleCursor m w = (Ok m1, w1) /\ Render m w = (Ok m2, w2)
    /\ items m1 !! Z.to_nat (cursor m) = Some (flip_selected it)
    /\ wf (out m1) = wf (out m2) /\ lines (out m1) = lines (out m2).
Proof.
  intros m w it. split; [split; reflexivity|].
  apply (toggleCursor_on_error_row_paints_the_same m w it); reflexivity.
Defined.

Lemma row_lines_all_selectable h its : forall i cur j it,
  Forall (fun x => MenuItem_selectable x = true) its ->
  0 <= i -> i + Z.of_nat (length its) <= int_max ->
  its !! j = Some it ->
  row_lines h its i cur !! j = Some (row_line h it (i + Z.of_nat j =? cur)).
Proof.
  induction its as [|a its IH]; intros i cur [|j] it Hs Hi Hfit Hl;
    cbn in Hl; try discriminate.
  - injection Hl as ->. cbn. rewrite Z.add_0_r. reflexivity.
  - inversion Hs as [|? ? Ha Hrest]; subst.
    cbn [row_lines]. rewrite Ha.
    cbn [length] in Hfit.
    rewrite wrap_small by (unfold in_range, int_min, int_max in *; lia).
    change ((?x :: ?l) !! S j) with (l !! j).
    rewrite (IH (i + 1) cur j it) by (try assumption; lia).
    do 2 f_equal. f_equal. lia.
Qed.

Lemma map_lookup {A B} (f : A -> B) (l : list A) (j : nat) :
  map f l !! j = f <$> (l !! j).
Proof.
  revert j. induction l as [|a l IH]; intros [|j]; try reflexivity. apply IH.
Qed.

(** X22: in a menu whose rows all carry an update descriptor, [Render]
    writes, after the clear sequence and the header, one line per row in
    row order, and the line of row number [j] has the cursor marker exactly
    when [j] is the cursor: the marked row is the one [toggleCursor]
    flips. *)
Theorem Render_marks_cursor_row_when_all_selectable (m : Menu) (w : World)
    (j : nat) (it : MenuItem) :
  Forall (fun x => MenuItem_selectable x = true) (items m) ->
  Z.of_nat (length (items m)) <= max_rows ->
  items m !! j = Some it ->
  wf (out (menu_of (Render m w))) !! (length (wf (out m)) + 2 + j)%nat
  = Some (Written (row_line (heap w) it (Z.of_nat j =? cursor m))).
Proof.
  intros Hs Hfit Hl. rewrite Render_ok. unfold menu_of.
  cbn [fst out set_out Flush wf]. rewrite writes_wf. cbn [Clear wf].
  unfold painted. cbn [map].
  rewrite <- !app_assoc. rewrite lookup_app_r by lia.
  replace (length (wf (out m)) + 2 + j - length (wf (out m)))%nat
    with (S (S j)) by lia.
  cbn [app]. change ((?x :: ?y :: ?l) !! S (S j)) with (l !! j).
  assert (R : row_lines (heap w) (items m) 0 (cursor m) !! j
              = Some (row_line (heap w) it (0 + Z.of_nat j =? cursor m))).
  { apply row_lines_all_selectable; try assumption; try lia.
    unfold max_rows, int_max in *. lia. }
  rewrite lookup_app_l.
  - rewrite map_lookup, R. reflexivity.
  - rewrite length_map. apply lookup_lt_Some in R. exact R.
Qed.

Lemma Render_marks_cursor_row_when_all_selectable_witness :
  (Forall (fun x => MenuItem_selectable x = true) (items sample_menu)
   /\ Z.of_nat (length (items sample_menu)) <= max_rows
   /\ items sample_menu !! 1%nat
      = Some (update_row "default:deployment/app" "success" 0%nat))
  /\ wf (out (menu_of (Render sample_menu sample_world)))
       !! (length (wf (out sample_menu)) + 2 + 1)%nat
     = Some (Written (row_line (heap sample_world)
                        (update_row "default:deployment/app" "success" 0%nat)
                        (Z.of_nat 1 =? cursor sample_menu))).
Proof.
  assert (A : Forall (fun x => MenuItem_selectable x = true) (items sample_menu))
    by (repeat constructor).
  assert (B : Z.of_nat (length (items sample_menu)) <= max_rows)
    by (vm_compute; discriminate).
  assert (C : items sample_menu !! 1%nat
              = Some (update_row "default:deployment/app" "success" 0%nat))
    by reflexivity.
  split; [split; [exact A|split; [exact B|exact C]]|].
  exact (Render_marks_cursor_row_when_all_selectable sample_menu sample_world
           1 _ A B C).
Defined.
